(** * The TeXCount word counter of LaTeX Workshop (src/extras/counter.ts)

    A shallow embedding of the [Counter] class: its fields, the status bar
    item it drives, the child processes it spawns and the promise each
    [runTeXCount] call returns.  JavaScript strings are [string]s, the
    arrays the class holds by reference live in a store, and the methods
    are written in a small state-and-exception monad over the [World] they
    read and write. *)

From Stdlib Require Import ZArith NArith Ascii String Bool Lia.
From stdpp Require Import base list strings.

Local Open Scope Z_scope.

(** ** JavaScript strings *)

Module Js.

(** The code units of a string, for list reasoning. *)
Definition chars (s : string) : list ascii := String.list_ascii_of_string s.

(** [s.includes(t)] as a proposition: [t] occurs somewhere in [s]. *)
Definition Includes (s t : string) : Prop :=
  exists a b : string, s = a +:+ t +:+ b.

(** [s.endsWith(t)] as a proposition. *)
Definition EndsWith (s t : string) : Prop :=
  exists a : string, s = a +:+ t.

(** [[0-9]]: the character class of the two patterns. *)
Definition isDigit (c : ascii) : bool :=
  (48 <=? nat_of_ascii c)%nat && (nat_of_ascii c <=? 57)%nat.

(** The value of a decimal digit. *)
Definition digitValue (c : ascii) : N := N.of_nat (nat_of_ascii c - 48).

Definition allDigits (s : string) : bool := forallb isDigit (chars s).

(** The longest run of digits at the head of [s]: what the greedy group
    of digits captures, since nothing follows the group in the pattern
    and the star never has to give characters back. *)
Fixpoint takeDigits (s : string) : string :=
  match s with
  | String c s' => if isDigit c then String c (takeDigits s') else ""
  | EmptyString => ""
  end.

(** Matching the literal [p] at the head of [s]: the rest of [s] after
    it, if it is there. *)
Fixpoint stripPrefix (p s : string) : option string :=
  match p, s with
  | EmptyString, _ => Some s
  | String a p', String b s' =>
      if Ascii.eqb a b then stripPrefix p' s' else None
  | String _ _, EmptyString => None
  end.

(** [exec(s)] of a fresh global regular expression (lastIndex 0) made of
    the literal [lit] and one group of zero or more digits, as the first
    capture group of the match, [None] for [null]: the
    positions of [s] are tried from the left, the first one where the
    literal is found matches, and the group takes the digits after it. *)
Fixpoint execLitDigits (lit s : string) : option string :=
  match stripPrefix lit s with
  | Some rest => Some (takeDigits rest)
  | None =>
      match s with
      | String _ s' => execLitDigits lit s'
      | EmptyString => None
      end
  end.

(** [parseInt(s)] without a radix, for a string that starts with neither
    white space, a sign nor [0x], which is every string a group of digits
    can hold: the decimal value of the leading digits, [None] for [NaN]
    when there is none.  The code only compares the result with 0 and 1;
    rounding to a double is monotone and leaves 0, 1 and 2 fixed, so the
    comparisons on the exact integer are the ones on the double. *)
Fixpoint digitsValue (acc : N) (s : string) : N :=
  match s with
  | String c s' => digitsValue (10 * acc + digitValue c)%N s'
  | EmptyString => acc
  end.

Definition parseInt (s : string) : option N :=
  match takeDigits s with
  | EmptyString => None
  | ds => Some (digitsValue 0%N ds)
  end.

(** [x > k] for a number [x] that may be [NaN]: false on [NaN]. *)
Definition gt (x : option N) (k : N) : bool :=
  match x with
  | Some n => (k <? n)%N
  | None => false
  end.

End Js.

(** ** The two patterns and the message *)

(** The literal of the word pattern, before its group of digits. *)
Definition wordsPattern : string := "Words in text: ".

(** The literal of the float pattern (its slashes unescaped). *)
Definition floatsPattern : string := "Number of floats/tables/figures: ".

(** The [floatMsg] local of the exit handler (counter.ts 146-149);
    [floats] is the first group of the second match, [None] when the
    pattern did not match. *)
Definition floatMsg (floats : option string) : string :=
  match floats with
  | Some f =>
      if Js.gt (Js.parseInt f) 0
      then "and " +:+ f +:+ " float"
             +:+ (if Js.gt (Js.parseInt f) 1 then "s" else "")
             +:+ " (tables, figures, etc.) "
      else ""
  | None => ""
  end.

(** The template string stored in [texCountMessage] (counter.ts 151). *)
Definition buildMessage (words : string) (floats : option string)
    (merge : bool) : string :=
  "There are " +:+ words +:+ " words " +:+ floatMsg floats +:+ "in the "
    +:+ (if merge then "LaTeX project" else "opened LaTeX file") +:+ ".".

(** The float clause as the specification words it, "and <M> float(s)
    (tables, figures, etc.)", for the digits [m] of the float count, in
    the singular or in the plural. *)
Definition floatClause (m : string) (plural : bool) : string :=
  "and " +:+ m +:+ (if plural then " floats" else " float")
    +:+ " (tables, figures, etc.)".

(** The opening parenthesis, which a message holds only in its float
    clause. *)
Definition paren : ascii := "("%char.

(** ** The data model *)

(** A JavaScript array is held by reference: an index into the store of
    arrays of the [World]. *)
Definition ref := nat.

(** The part of [vscode.StatusBarItem] the class touches. *)
Record StatusBarItem := mkStatus {
  text : string;
  tooltip : string;
  visible : bool                  (* show() / hide() *)
}.

(** The fields of [Counter] (counter.ts 11-19). *)
Record Counter := mkCounter {
  useDocker : bool;
  disableCountAfterSave : bool;
  autoRunEnabled : bool;
  autoRunInterval : Z;
  commandArgs : ref;
  commandPath : string;
  texCountMessage : string;
  wordCount : string;
  status : StatusBarItem
}.

(** What [then] attaches to the promise of [runTeXCount]: the callback of
    [countOnSaveIfEnabled] (counter.ts 89-91) or of [count] (96-98). *)
Inductive Reaction :=
| ThenUpdateWordCount
| ThenShowInformationMessage.

(** A spawned child process with the closure of its handlers: the [merge]
    argument, the [stdout] and [stderr] accumulators, and the promise
    returned by the call ([settled] once [resolve] ran, [reaction] once
    [then] was called on it).  [exited] records that the host has emitted
    the exit event, which a child process emits once. *)
Record Proc := mkProc {
  merge : bool;
  stdout : string;
  stderr : string;
  exited : bool;
  settled : bool;
  reaction : option Reaction
}.

(** The first argument of the exit event: a number, or [null] when the
    process was ended by a signal. *)
Definition ExitCode := option Z.

(** What [logger.logError] is given as its second argument. *)
Inductive ErrorDetail :=
| ErrObject (err : string)
| ErrExitCode (code : ExitCode).

(** The calls that leave the class, in the order they are made. *)
Inductive Effect :=
| Log (msg : string)
| LogCommand (msg command : string) (args : list string)
| LogError (msg : string) (detail : ErrorDetail) (stderr : string)
| ShowErrorMessage (msg : string)
| ShowInformationMessage (msg : string)
| ChmodSync (path : string) (mode : Z)
| Spawn (command : string) (args : list string) (cwd : string)
| SetTimeout (delay : Z).

(** A timer set by [countOnSaveIfEnabled]; its callback is always
    [() => this.disableCountAfterSave = false]. *)
Record Timer := mkTimer {
  delay : Z;
  fired : bool
}.

(** The counter, the store of arrays, the processes and timers it created,
    the reactions waiting as microtasks and the calls made so far. *)
Record World := mkWorld {
  this : Counter;
  arrays : list (list string);
  procs : list Proc;
  timers : list Timer;
  microtasks : list Reaction;
  trace : list Effect
}.

(** The five settings [loadConfiguration] reads for a scope. *)
Record Config := mkConfig {
  texcount_autorun : string;
  texcount_interval : Z;
  texcount_args : list string;
  texcount_path : string;
  docker_enabled : bool
}.

(** What the class takes from Node and from the extension: the [path]
    functions, [process.platform], [lw.extensionRoot], whether
    [fs.chmodSync] succeeds on a path (it throws otherwise), and whether
    [cs.spawn] returns a process for a command, its arguments and a
    working directory (it throws otherwise, at once, as on an empty
    command). *)
Record Host := mkHost {
  platform : string;
  extensionRoot : string;
  path_resolve : string -> string -> string;
  path_basename : string -> string;
  path_dirname : string -> string;
  chmodSync_ok : string -> bool;
  spawn_ok : string -> list string -> string -> bool
}.

(** ** Field updates *)

Definition set_text (v : string) (st : StatusBarItem) : StatusBarItem :=
  mkStatus v (tooltip st) (visible st).
Definition set_tooltip (v : string) (st : StatusBarItem) : StatusBarItem :=
  mkStatus (text st) v (visible st).
Definition set_visible (v : bool) (st : StatusBarItem) : StatusBarItem :=
  mkStatus (text st) (tooltip st) v.

Definition set_status (f : StatusBarItem -> StatusBarItem) (c : Counter) : Counter :=
  mkCounter (useDocker c) (disableCountAfterSave c) (autoRunEnabled c)
    (autoRunInterval c) (commandArgs c) (commandPath c) (texCountMessage c)
    (wordCount c) (f (status c)).
Definition set_disableCountAfterSave (v : bool) (c : Counter) : Counter :=
  mkCounter (useDocker c) v (autoRunEnabled c) (autoRunInterval c)
    (commandArgs c) (commandPath c) (texCountMessage c) (wordCount c)
    (status c).
Definition set_wordCount (v : string) (c : Counter) : Counter :=
  mkCounter (useDocker c) (disableCountAfterSave c) (autoRunEnabled c)
    (autoRunInterval c) (commandArgs c) (commandPath c) (texCountMessage c)
    v (status c).
Definition set_texCountMessage (v : string) (c : Counter) : Counter :=
  mkCounter (useDocker c) (disableCountAfterSave c) (autoRunEnabled c)
    (autoRunInterval c) (commandArgs c) (commandPath c) v (wordCount c)
    (status c).
Definition set_configuration (enabled : bool) (interval : Z) (args : ref)
    (path : string) (docker : bool) (c : Counter) : Counter :=
  mkCounter docker (disableCountAfterSave c) enabled interval args path
    (texCountMessage c) (wordCount c) (status c).

Definition with_this (f : Counter -> Counter) (w : World) : World :=
  mkWorld (f (this w)) (arrays w) (procs w) (timers w) (microtasks w) (trace w).
Definition with_arrays (f : list (list string) -> list (list string))
    (w : World) : World :=
  mkWorld (this w) (f (arrays w)) (procs w) (timers w) (microtasks w) (trace w).
Definition with_procs (f : list Proc -> list Proc) (w : World) : World :=
  mkWorld (this w) (arrays w) (f (procs w)) (timers w) (microtasks w) (trace w).
Definition with_timers (f : list Timer -> list Timer) (w : World) : World :=
  mkWorld (this w) (arrays w) (procs w) (f (timers w)) (microtasks w) (trace w).
Definition with_microtasks (f : list Reaction -> list Reaction)
    (w : World) : World :=
  mkWorld (this w) (arrays w) (procs w) (timers w) (f (microtasks w)) (trace w).
Definition with_trace (f : list Effect -> list Effect) (w : World) : World :=
  mkWorld (this w) (arrays w) (procs w) (timers w) (microtasks w) (f (trace w)).

(** ** The monad of the methods *)

(** A method either returns a value or throws, and in both cases leaves a
    world behind. *)
Inductive Outcome (A : Type) :=
| Returns (a : A) (w : World)
| Throws (w : World).
Arguments Returns {A} a w.
Arguments Throws {A} w.

Definition M (A : Type) : Type := World -> Outcome A.

Definition ret {A} (a : A) : M A := fun w => Returns a w.

Definition bind {A B} (m : M A) (k : A -> M B) : M B :=
  fun w =>
    match m w with
    | Returns a w' => k a w'
    | Throws w' => Throws w'
    end.

Definition throw {A} : M A := fun w => Throws w.

Notation "'let*' x ':=' m 'in' k" := (bind m (fun x => k))
  (at level 10, x name, m at level 100, k at level 200).
Notation "m ;; k" := (bind m (fun _ => k))
  (at level 100, k at level 200, right associativity).

(** The world a call leaves, returned or thrown. *)
Definition worldOf {A} (o : Outcome A) : World :=
  match o with
  | Returns _ w => w
  | Throws w => w
  end.

Definition getThis : M Counter := fun w => Returns (this w) w.
Definition update (f : World -> World) : M unit := fun w => Returns tt (f w).
Definition effect (e : Effect) : M unit :=
  update (with_trace (fun t => t ++ [e])).

(** *** Arrays held by reference *)

(** [Array.from(a)]: a new array with the elements of [a]. *)
Definition Array_from (a : ref) : M ref :=
  fun w => Returns (length (arrays w))
             (with_arrays (fun h => h ++ [default [] (h !! a)]) w).

(** A new array object holding [xs], as [configuration.get] hands out. *)
Definition Array_new (xs : list string) : M ref :=
  fun w => Returns (length (arrays w)) (with_arrays (fun h => h ++ [xs]) w).

(** The elements of the array at [a], now. *)
Definition Array_elements (a : ref) : M (list string) :=
  fun w => Returns (default [] (arrays w !! a)) w.

(** [a.includes(x)] on an array of strings: some element is [===] to [x]. *)
Definition Array_includes (a : ref) (x : string) : M bool :=
  let* xs := Array_elements a in
  ret (existsb (String.eqb x) xs).

(** [a.push(x)]: the array at [a] is extended in place. *)
Definition Array_push (a : ref) (x : string) : M unit :=
  update (with_arrays (fun h => alter (fun xs => xs ++ [x]) a h)).

(** *** The logger, the notifications, timers and promises *)

Definition logger_log (msg : string) : M unit := effect (Log msg).
Definition logger_logCommand (msg command : string) (args : ref) : M unit :=
  let* xs := Array_elements args in
  effect (LogCommand msg command xs).
Definition logger_logError (msg : string) (detail : ErrorDetail)
    (err : string) : M unit :=
  effect (LogError msg detail err).
Definition logger_showErrorMessage (msg : string) : M unit :=
  effect (ShowErrorMessage msg).
Definition showInformationMessage (msg : string) : M unit :=
  effect (ShowInformationMessage msg).

(** [setTimeout(() => this.disableCountAfterSave = false, delay)] *)
Definition setTimeout (d : Z) : M unit :=
  effect (SetTimeout d) ;;
  update (with_timers (fun ts => ts ++ [mkTimer d false])).

(** [resolve(true)] of the promise of process [pid]: the first call
    settles it and queues the reaction attached to it; later calls do
    nothing. *)
Definition resolve (pid : nat) : M unit :=
  fun w =>
    match procs w !! pid with
    | Some p =>
        if settled p then Returns tt w
        else Returns tt
               (with_microtasks (fun q => q ++ option_list (reaction p))
                  (with_procs
                     <[pid := mkProc (merge p) (stdout p) (stderr p)
                                (exited p) true (reaction p)]> w))
    | None => Returns tt w
    end.

(** [promise.then(r)] on the promise of process [pid], called in the
    statement that created it, so that it is still pending. *)
Definition promise_then (pid : nat) (r : Reaction) : M unit :=
  update (with_procs
            (alter (fun p => mkProc (merge p) (stdout p) (stderr p)
                               (exited p) (settled p) (Some r)) pid)).

(** ** The methods of [Counter] *)

Section Methods.

Variable host : Host.

(** [fs.chmodSync(path, mode)] *)
Definition fs_chmodSync (path : string) (mode : Z) : M unit :=
  if chmodSync_ok host path then effect (ChmodSync path mode) else throw.

(** [cs.spawn(command, args, {cwd})] together with the handlers the
    method attaches to the process (counter.ts 118-156): the call throws
    when the host refuses to spawn, and otherwise the process starts with
    empty accumulators and a pending promise. *)
Definition cs_spawn (command : string) (args : ref) (cwd : string)
    (mrg : bool) : M nat :=
  let* xs := Array_elements args in
  if spawn_ok host command xs cwd
  then
    effect (Spawn command xs cwd) ;;
    fun w => Returns (length (procs w))
               (with_procs
                  (fun ps => ps ++ [mkProc mrg "" "" false false None]) w)
  else throw.

(** counter.ts 50-57 *)
Definition loadConfiguration (configuration : Config) : M unit :=
  let* args := Array_new (texcount_args configuration) in
  update (with_this
            (set_configuration
               (String.eqb (texcount_autorun configuration) "onSave")
               (texcount_interval configuration)
               args
               (texcount_path configuration)
               (docker_enabled configuration))).

(** counter.ts 68-76 *)
Definition updateWordCount : M unit :=
  let* c := getThis in
  if String.eqb (wordCount c) ""
  then
    update (with_this (set_status (set_text ""))) ;;
    update (with_this (set_status (set_tooltip "")))
  else
    update (with_this (set_status (set_text (wordCount c +:+ " words")))) ;;
    update (with_this (set_status (set_tooltip (texCountMessage c)))).

(** counter.ts 59-66 *)
Definition updateStatusVisibility : M unit :=
  let* c := getThis in
  if autoRunEnabled c
  then
    updateWordCount ;;
    update (with_this (set_status (set_visible true)))
  else
    update (with_this (set_status (set_visible false))).

(** counter.ts 101-157, up to the return of the promise; the handlers
    are [onStdoutData], [onStderrData], [onError] and [onExit] below. *)
Definition runTeXCount (file : string) (mrg : bool) : M nat :=
  let* c := getThis in
  let* command :=
    (if useDocker c
     then
       logger_log "Use Docker to invoke the command." ;;
       if String.eqb (platform host) "win32"
       then ret (path_resolve host (extensionRoot host) "./scripts/texcount.bat")
       else
         let command := path_resolve host (extensionRoot host) "./scripts/texcount" in
         fs_chmodSync command 493 ;;
         ret command
     else ret (commandPath c)) in
  let* args := Array_from (commandArgs c) in
  let* hasMerge := Array_includes args "-merge" in
  (if mrg && negb hasMerge then Array_push args "-merge" else ret tt) ;;
  Array_push args (path_basename host file) ;;
  logger_logCommand "Count words using command." command args ;;
  cs_spawn command args (path_dirname host file) mrg.

(** counter.ts 78-92 *)
Definition countOnSaveIfEnabled (file : string) : M unit :=
  let* c := getThis in
  if negb (autoRunEnabled c) then ret tt
  else if disableCountAfterSave c
  then logger_log "Auto texcount is temporarily disabled during a second."
  else
    logger_log ("Auto texcount started on saving file " +:+ file +:+ " .") ;;
    update (with_this (set_disableCountAfterSave true)) ;;
    setTimeout (autoRunInterval c) ;;
    let* promise := runTeXCount file true in
    promise_then promise ThenUpdateWordCount.

(** counter.ts 95-99 *)
Definition count (file : string) (mrg : bool) : M unit :=
  let* promise := runTeXCount file mrg in
  promise_then promise ThenShowInformationMessage.

(** The callback of the timer (counter.ts 88). *)
Definition onTimeout : M unit :=
  update (with_this (set_disableCountAfterSave false)).

(** counter.ts 123-125 *)
Definition onStdoutData (pid : nat) (newStdout : string) : M unit :=
  update (with_procs
            (alter (fun p => mkProc (merge p) (stdout p +:+ newStdout)
                               (stderr p) (exited p) (settled p)
                               (reaction p)) pid)).

(** counter.ts 127-130 *)
Definition onStderrData (pid : nat) (newStderr : string) : M unit :=
  update (with_procs
            (alter (fun p => mkProc (merge p) (stdout p)
                               (stderr p +:+ newStderr) (exited p)
                               (settled p) (reaction p)) pid)).

(** counter.ts 132-135; [p] is the closure of the process. *)
Definition onError (p : Proc) (err : string) : M unit :=
  logger_logError "Cannot count words." (ErrObject err) (stderr p) ;;
  logger_showErrorMessage
    "TeXCount failed. Please refer to LaTeX Workshop Output for details.".

(** counter.ts 138-155; [p] is the closure of the process [pid]. *)
Definition onExit (pid : nat) (p : Proc) (exitCode : ExitCode) : M unit :=
  if negb (bool_decide (exitCode = Some 0))
  then
    logger_logError "Cannot count words" (ErrExitCode exitCode) (stderr p) ;;
    logger_showErrorMessage
      "TeXCount failed. Please refer to LaTeX Workshop Output for details."
  else
    let words := Js.execLitDigits wordsPattern (stdout p) in
    let floats := Js.execLitDigits floatsPattern (stdout p) in
    match words with
    | Some words1 =>
        update (with_this (set_wordCount words1)) ;;
        update (with_this
                  (set_texCountMessage
                     (buildMessage words1 floats (merge p)))) ;;
        resolve pid
    | None => ret tt
    end.

(** The callbacks attached with [then]. *)
Definition react (r : Reaction) : M unit :=
  match r with
  | ThenUpdateWordCount => updateWordCount
  | ThenShowInformationMessage =>
      let* c := getThis in
      showInformationMessage (texCountMessage c)
  end.

(** The listener of [onDidChangeConfiguration] (counter.ts 25-31);
    [affects] is the value of the condition on the change event and
    [configuration] the settings at the scope of [getWorkspace()]. *)
Definition onDidChangeConfiguration (affects : bool)
    (configuration : Config) : M unit :=
  if affects
  then loadConfiguration configuration ;; updateStatusVisibility
  else ret tt.

(** The listener of [onDidChangeActiveTextEditor] (counter.ts 33-40);
    the editor, when there is one, comes as whether its language is a
    TeX one and the settings at the scope of its document. *)
Definition onDidChangeActiveTextEditor (e : option (bool * Config)) : M unit :=
  match e with
  | Some (true, configuration) =>
      loadConfiguration configuration ;; updateStatusVisibility
  | _ => update (with_this (set_status (set_visible false)))
  end.

(** counter.ts 21-41, on the fields as they are initialised. *)
Definition constructor (configuration : Config) : M unit :=
  loadConfiguration configuration ;; updateStatusVisibility.

(** ** The event loop *)

(** What the host can do to a counter: deliver one of the events it
    listens to, or call one of its two public entry points. *)
Inductive Event :=
| DidChangeConfiguration (affects : bool) (configuration : Config)
| DidChangeActiveTextEditor (e : option (bool * Config))
| CallCountOnSaveIfEnabled (file : string)
| CallCount (file : string) (mrg : bool)
| TimerFires (tid : nat)
| StdoutData (pid : nat) (chunk : string)
| StderrData (pid : nat) (chunk : string)
| ProcessError (pid : nat) (err : string)
| ProcessExit (pid : nat) (exitCode : ExitCode).

Definition markFired (t : Timer) : Timer := mkTimer (delay t) true.
Definition markExited (p : Proc) : Proc :=
  mkProc (merge p) (stdout p) (stderr p) true (settled p) (reaction p).

(** The task an event starts.  A timer runs its callback once; a child
    process emits its exit event once; events for processes and timers
    that were never created do not occur and are ignored. *)
Definition dispatch (e : Event) : M unit :=
  match e with
  | DidChangeConfiguration affects configuration =>
      onDidChangeConfiguration affects configuration
  | DidChangeActiveTextEditor ed => onDidChangeActiveTextEditor ed
  | CallCountOnSaveIfEnabled file => countOnSaveIfEnabled file
  | CallCount file mrg => count file mrg
  | TimerFires tid =>
      fun w =>
        match timers w !! tid with
        | Some t =>
            if fired t then Returns tt w
            else (update (with_timers (alter markFired tid)) ;; onTimeout) w
        | None => Returns tt w
        end
  | StdoutData pid chunk => onStdoutData pid chunk
  | StderrData pid chunk => onStderrData pid chunk
  | ProcessError pid err =>
      fun w =>
        match procs w !! pid with
        | Some p => onError p err w
        | None => Returns tt w
        end
  | ProcessExit pid exitCode =>
      fun w =>
        match procs w !! pid with
        | Some p =>
            if exited p then Returns tt w
            else (update (with_procs (alter markExited pid)) ;;
                  onExit pid p exitCode) w
        | None => Returns tt w
        end
  end.

(** The microtasks queued by [resolve] run when the task is over. *)
Fixpoint runReactions (rs : list Reaction) : M unit :=
  match rs with
  | [] => ret tt
  | r :: rs' => react r ;; runReactions rs'
  end.

Definition drainMicrotasks : M unit :=
  fun w => runReactions (microtasks w) (with_microtasks (fun _ => []) w).

(** One turn of the event loop: the task, then the microtasks; an
    exception of the task goes to the host and the world stays as the
    task left it. *)
Definition step (w : World) (e : Event) : World :=
  worldOf (drainMicrotasks (worldOf (dispatch e w))).

Definition run (w : World) (es : list Event) : World :=
  fold_left step es w.

End Methods.

(** The fields as the class initialises them (counter.ts 11-18), with the
    empty array of [commandArgs] at reference 0, and a status bar item
    that is created hidden and without text. *)
Definition newCounter : Counter :=
  mkCounter false false false 0 0%nat "" "" "" (mkStatus "" "" false).

Definition newWorld : World := mkWorld newCounter [[]] [] [] [] [].

(** The counter after its constructor ran. *)
Definition start (configuration : Config) : World :=
  worldOf (constructor configuration newWorld).

(** ** A POSIX host for the examples *)

Module Posix.

(** [xs] without the slashes at its head. *)
Fixpoint dropSlashes (xs : list ascii) : list ascii :=
  match xs with
  | "/"%char :: xs' => dropSlashes xs'
  | _ => xs
  end.

(** The characters of [xs] before its first slash. *)
Fixpoint untilSlash (xs : list ascii) : list ascii :=
  match xs with
  | [] => []
  | c :: xs' => if Ascii.eqb c "/" then [] else c :: untilSlash xs'
  end.

(** [path.posix.basename(p)]: the trailing slashes are dropped and what
    follows the last slash that remains is returned. *)
Definition basename (p : string) : string :=
  string_of_list_ascii
    (rev (untilSlash (dropSlashes (rev (Js.chars p))))).

(** The characters of [xs] from its first slash on. *)
Fixpoint fromSlash (xs : list ascii) : list ascii :=
  match xs with
  | [] => []
  | c :: xs' => if Ascii.eqb c "/" then xs else fromSlash xs'
  end.

(** [path.posix.dirname(p)]: from the right and without looking at the
    first character, the trailing slashes and the base name are skipped;
    the path up to the slash found there is returned, ["//"] when that
    is the second character of a rooted path, and the root or ["."] when
    there is no such slash. *)
Definition dirname (p : string) : string :=
  match Js.chars p with
  | [] => "."
  | c0 :: rest =>
      match fromSlash (dropSlashes (rev rest)) with
      | [] => if Ascii.eqb c0 "/" then "/" else "."
      | _ :: before =>
          match before with
          | [] => if Ascii.eqb c0 "/" then "//" else String c0 ""
          | _ => string_of_list_ascii (c0 :: rev before)
          end
      end
  end.

(** [path.posix.resolve(root, "./" + rest)] for an absolute, normalised
    [root], which is what the two calls of the class pass. *)
Definition resolve (root rel : string) : string :=
  match rel with
  | String "." (String "/" rest) => root +:+ "/" +:+ rest
  | _ => root +:+ "/" +:+ rel
  end.

(** The string holds a null character. *)
Definition hasNull (s : string) : bool :=
  existsb (Ascii.eqb zero) (Js.chars s).

(** [cs.spawn] on a POSIX host returns a process unless the command is
    empty or the command, an argument or the working directory holds a
    null character, which Node refuses at once with an exception; a
    command that does not exist is reported later, by the error event. *)
Definition spawns (command : string) (args : list string) (cwd : string)
    : bool :=
  negb (String.eqb command "")
  && forallb (fun s => negb (hasNull s)) (command :: cwd :: args).

Definition host : Host :=
  mkHost "linux" "/opt/latex-workshop" resolve basename dirname
    (fun _ => true) spawns.

End Posix.

(** ** Closed forms and predicates of the statements *)

(** The message with a float message in it, for the digits [m]. *)
Definition withFloats (words m : string) (plural mrg : bool) : string :=
  "There are " +:+ words +:+ " words "
    +:+ ("and " +:+ m +:+ " float" +:+ (if plural then "s" else "")
           +:+ " (tables, figures, etc.) ")
    +:+ "in the "
    +:+ (if mrg then "LaTeX project" else "opened LaTeX file") +:+ ".".

Section ClosedForms.

Variable host : Host.

(** The argument list [runTeXCount] builds from the configured one. *)
Definition spawnArgs (configured : list string) (file : string)
    (mrg : bool) : list string :=
  (if mrg && negb (existsb (String.eqb "-merge") configured)
   then configured ++ ["-merge"] else configured)
  ++ [path_basename host file].

(** The world after the spawn, given the command and what was logged
    before the argument list was built. *)
Definition spawned (w : World) (command : string) (before : list Effect)
    (file : string) (mrg : bool) : World :=
  let args :=
    spawnArgs (default [] (arrays w !! commandArgs (this w))) file mrg in
  mkWorld (this w) (arrays w ++ [args])
    (procs w ++ [mkProc mrg "" "" false false None])
    (timers w) (microtasks w)
    (trace w ++ before
       ++ [LogCommand "Count words using command." command args;
           Spawn command args (path_dirname host file)]).

(** The world in which [cs.spawn] threw: the arguments are built and
    logged, and there is no process. *)
Definition refused (w : World) (command : string) (before : list Effect)
    (file : string) (mrg : bool) : World :=
  let args :=
    spawnArgs (default [] (arrays w !! commandArgs (this w))) file mrg in
  mkWorld (this w) (arrays w ++ [args]) (procs w) (timers w) (microtasks w)
    (trace w ++ before
       ++ [LogCommand "Count words using command." command args]).

(** The outcome of the call of [cs.spawn] at the end of [runTeXCount]. *)
Definition spawnOutcome (w : World) (command : string) (before : list Effect)
    (file : string) (mrg : bool) : Outcome nat :=
  if spawn_ok host command
       (spawnArgs (default [] (arrays w !! commandArgs (this w))) file mrg)
       (path_dirname host file)
  then Returns (length (procs w)) (spawned w command before file mrg)
  else Throws (refused w command before file mrg).

(** The wrapper script of the Docker mode on this host. *)
Definition dockerCommand : string :=
  if String.eqb (platform host) "win32"
  then path_resolve host (extensionRoot host) "./scripts/texcount.bat"
  else path_resolve host (extensionRoot host) "./scripts/texcount".

(** The outcome of [runTeXCount] in closed form: it throws when the
    script of the Docker mode cannot be made executable or when
    [cs.spawn] throws, and otherwise returns the promise of the process
    it spawned. *)
Definition runTeXCountOutcome (file : string) (mrg : bool) (w : World)
    : Outcome nat :=
  if useDocker (this w)
  then
    if String.eqb (platform host) "win32"
    then spawnOutcome w dockerCommand
           [Log "Use Docker to invoke the command."] file mrg
    else if chmodSync_ok host dockerCommand
    then spawnOutcome w dockerCommand
           [Log "Use Docker to invoke the command.";
            ChmodSync dockerCommand 493] file mrg
    else Throws (with_trace
                   (fun t => t ++ [Log "Use Docker to invoke the command."]) w)
  else spawnOutcome w (commandPath (this w)) [] file mrg.

End ClosedForms.

(** The world in which [countOnSaveIfEnabled] starts its count: the
    flag is set and the timer is running. *)
Definition armed (w : World) (file : string) : World :=
  mkWorld (set_disableCountAfterSave true (this w)) (arrays w) (procs w)
    (timers w ++ [mkTimer (autoRunInterval (this w)) false])
    (microtasks w)
    (trace w
       ++ [Log ("Auto texcount started on saving file " +:+ file +:+ " .");
           SetTimeout (autoRunInterval (this w))]).

(** What the exit handler logs and shows when the count failed. *)
Definition failureLogged (code : ExitCode) (p : Proc) : list Effect :=
  [LogError "Cannot count words" (ErrExitCode code) (stderr p);
   ShowErrorMessage
     "TeXCount failed. Please refer to LaTeX Workshop Output for details."].

(** The counter after the two assignments of a successful parse. *)
Definition stored (p : Proc) (words1 : string) (c : Counter) : Counter :=
  set_texCountMessage
    (buildMessage words1 (Js.execLitDigits floatsPattern (stdout p)) (merge p))
    (set_wordCount words1 c).

(** What the handlers of a process share with the promise: its closure. *)
Definition sameClosure (p p' : Proc) : Prop :=
  merge p' = merge p /\ exited p' = exited p /\ settled p' = settled p.

(** [w'] has the word count and the message of [w], every process of
    [w] with the same [merge], not exited and not settled any further,
    and its new processes running with a pending promise. *)
Definition quiet (w w' : World) : Prop :=
  wordCount (this w') = wordCount (this w) /\
  texCountMessage (this w') = texCountMessage (this w) /\
  (forall (pid : nat) (p : Proc),
     procs w !! pid = Some p ->
     exists p', procs w' !! pid = Some p' /\ sameClosure p p') /\
  (forall (pid : nat) (p' : Proc),
     procs w' !! pid = Some p' -> (length (procs w) <= pid)%nat ->
     exited p' = false /\ settled p' = false).

Definition Quiet {A} (m : M A) : Prop := forall w, quiet w (worldOf (m w)).

(** Every process that has not exited has a pending promise. *)
Definition pending (w : World) : Prop :=
  forall (pid : nat) (p : Proc),
    procs w !! pid = Some p -> exited p = false -> settled p = false.

(** The process [pid] of a world, with the closure [p] had. *)
Definition keeps (pid : nat) (p : Proc) (w' : World) : Prop :=
  exists p', procs w' !! pid = Some p' /\ sameClosure p p'.

(** A count was triggered between [w] and [w']: a process was spawned. *)
Definition countTriggered (w w' : World) : Prop :=
  (length (procs w) < length (procs w'))%nat \/
  exists command args cwd,
    In (Spawn command args cwd) (drop (length (trace w)) (trace w')).

(** The word count and the message of a counter are the initial empty
    strings or come from one parse. *)
Definition paired (c : Counter) : Prop :=
  (wordCount c = "" /\ texCountMessage c = "") \/
  exists (words1 : string) (floats : option string) (mrg : bool),
    wordCount c = words1 /\ texCountMessage c = buildMessage words1 floats mrg.

(** The event is the exit of process [pid]. *)
Definition isExitOf (pid : nat) (e : Event) : bool :=
  match e with
  | ProcessExit i _ => Nat.eqb i pid
  | _ => false
  end.

(** ** Closed forms of the turns *)

(** The configuration an event makes the counter load, if it does. *)
Definition loadedBy (e : Event) : option Config :=
  match e with
  | DidChangeConfiguration true configuration => Some configuration
  | DidChangeActiveTextEditor (Some (true, configuration)) => Some configuration
  | _ => None
  end.

(** The configuration loaded last, from the constructor's on. *)
Definition lastConfig (configuration : Config) (es : list Event) : Config :=
  fold_left (fun c e => default c (loadedBy e)) es configuration.

(** The counter and the store after [loadConfiguration], with the status
    bar item [st]. *)
Definition configured (configuration : Config) (st : StatusBarItem)
    (w : World) : World :=
  mkWorld
    (mkCounter (docker_enabled configuration) (disableCountAfterSave (this w))
       (String.eqb (texcount_autorun configuration) "onSave")
       (texcount_interval configuration) (length (arrays w))
       (texcount_path configuration) (texCountMessage (this w))
       (wordCount (this w)) st)
    (arrays w ++ [texcount_args configuration]) (procs w) (timers w)
    (microtasks w) (trace w).

(** What [updateWordCount] puts in the status bar item [st]. *)
Definition displayed (c : Counter) (st : StatusBarItem) : StatusBarItem :=
  if String.eqb (wordCount c) ""
  then mkStatus "" "" (visible st)
  else mkStatus (wordCount c +:+ " words") (texCountMessage c) (visible st).

(** The status bar item after [updateStatusVisibility], when the
    auto-run is [enabled]. *)
Definition refreshed (enabled : bool) (c : Counter) : StatusBarItem :=
  if enabled
  then set_visible true (displayed c (status c))
  else set_visible false (status c).

(** The five settings of the counter are the ones of [configuration],
    its arguments in the array the [commandArgs] field refers to. *)
Definition settingsOf (configuration : Config) (w : World) : Prop :=
  autoRunEnabled (this w)
  = String.eqb (texcount_autorun configuration) "onSave" /\
  autoRunInterval (this w) = texcount_interval configuration /\
  commandPath (this w) = texcount_path configuration /\
  useDocker (this w) = docker_enabled configuration /\
  arrays w !! commandArgs (this w) = Some (texcount_args configuration).

(** Whether the status bar item is visible after the turn of [e], when
    it was [v] before. *)
Definition visibleAfter (e : Event) (v : bool) : bool :=
  match loadedBy e with
  | Some configuration => String.eqb (texcount_autorun configuration) "onSave"
  | None =>
      match e with
      | DidChangeActiveTextEditor _ => false
      | _ => v
      end
  end.

(** The chunks an event adds to the two accumulators of process [pid]. *)
Definition stdoutChunk (pid : nat) (e : Event) : string :=
  match e with
  | StdoutData i chunk => if Nat.eqb i pid then chunk else ""
  | _ => ""
  end.

Definition stderrChunk (pid : nat) (e : Event) : string :=
  match e with
  | StderrData i chunk => if Nat.eqb i pid then chunk else ""
  | _ => ""
  end.

(** All that the events write on the standard output of process [pid],
    in the order of arrival. *)
Fixpoint stdoutOf (pid : nat) (es : list Event) : string :=
  match es with
  | [] => ""
  | e :: es' => stdoutChunk pid e +:+ stdoutOf pid es'
  end.

Fixpoint stderrOf (pid : nat) (es : list Event) : string :=
  match es with
  | [] => ""
  | e :: es' => stderrChunk pid e +:+ stderrOf pid es'
  end.

(** A process with the output of [p] and what the turn of [e] adds. *)
Definition extends (pid : nat) (e : Event) (p p' : Proc) : Prop :=
  stdout p' = stdout p +:+ stdoutChunk pid e /\
  stderr p' = stderr p +:+ stderrChunk pid e.

(** The event neither fires a timer nor calls [count]. *)
Definition insideWindow (e : Event) : bool :=
  match e with
  | TimerFires _ => false
  | CallCount _ _ => false
  | _ => true
  end.

Section TurnForms.

Variable host : Host.

(** [runTeXCount] throws in this world: the Docker mode is on, the host
    is not Windows and the script cannot be made executable. *)
Definition chmodFails (w : World) : bool :=
  useDocker (this w)
  && negb (String.eqb (platform host) "win32")
  && negb (chmodSync_ok host (dockerCommand host)).

(** The command [runTeXCount] spawns. *)
Definition commandOf (w : World) : string :=
  if useDocker (this w) then dockerCommand host else commandPath (this w).

(** What [runTeXCount] logs and does before it builds the arguments. *)
Definition beforeSpawn (w : World) : list Effect :=
  if useDocker (this w)
  then
    if String.eqb (platform host) "win32"
    then [Log "Use Docker to invoke the command."]
    else [Log "Use Docker to invoke the command.";
          ChmodSync (dockerCommand host) 493]
  else [].

(** [cs.spawn] throws on what [runTeXCount] hands it in this world. *)
Definition spawnFails (w : World) (file : string) (mrg : bool) : bool :=
  negb (spawn_ok host (commandOf w)
          (spawnArgs host (default [] (arrays w !! commandArgs (this w)))
             file mrg)
          (path_dirname host file)).

(** The world after [runTeXCount] returned and the caller attached the
    reaction [r] to its promise. *)
Definition counting (w : World) (file : string) (mrg : bool) (r : Reaction)
    : World :=
  let args :=
    spawnArgs host (default [] (arrays w !! commandArgs (this w))) file mrg in
  mkWorld (this w) (arrays w ++ [args])
    (procs w ++ [mkProc mrg "" "" false false (Some r)])
    (timers w) (microtasks w)
    (trace w ++ beforeSpawn w
       ++ [LogCommand "Count words using command." (commandOf w) args;
           Spawn (commandOf w) args (path_dirname host file)]).

End TurnForms.

(** A POSIX host on which the script of the Docker mode cannot be made
    executable. *)
Definition lockedHost : Host :=
  mkHost "linux" "/opt/latex-workshop" Posix.resolve Posix.basename
    Posix.dirname (fun _ => false) Posix.spawns.

(** A configuration with the Docker mode on. *)
Definition dockerConfig : Config :=
  mkConfig "onSave" 1000 ["-inc"] "texcount" true.

(** ** Sample data *)

(** A counter configured to count on save, for the examples. *)
Definition onSaveConfig : Config :=
  mkConfig "onSave" 1000 ["-inc"] "texcount" false.

(** A line feed. *)
Definition LF : string := String "010"%char "".

(** An output with one hundred words and three floats. *)
Definition sampleOutput : string :=
  "Words in text: 100" +:+ LF +:+ "Number of floats/tables/figures: 3" +:+ LF.

(** * Properties *)

(** Comparisons of strings stay folded in the proofs. *)
Local Arguments String.eqb : simpl never.

(** ** Strings as lists of characters *)

Section StringFacts.

Lemma chars_app (a b : string) : Js.chars (a +:+ b) = Js.chars a ++ Js.chars b.
Proof. induction a as [|c a IH]; simpl; [reflexivity | now rewrite <- IH]. Qed.

Lemma chars_inj (a b : string) : Js.chars a = Js.chars b -> a = b.
Proof.
  intros H. rewrite <- (string_of_list_ascii_of_string a),
    <- (string_of_list_ascii_of_string b).
  unfold Js.chars in H. now rewrite H.
Qed.

Lemma Includes_chars (s t : string) :
  Js.Includes s t <->
  exists la lb, Js.chars s = la ++ Js.chars t ++ lb.
Proof.
  split.
  - intros (a & b & ->). exists (Js.chars a), (Js.chars b).
    now rewrite !chars_app.
  - intros (la & lb & H).
    exists (string_of_list_ascii la), (string_of_list_ascii lb).
    apply chars_inj. rewrite !chars_app. unfold Js.chars at 2 4.
    now rewrite !list_ascii_of_string_of_list_ascii.
Qed.

Lemma Includes_In (s t : string) (c : ascii) :
  Js.Includes s t -> In c (Js.chars t) -> In c (Js.chars s).
Proof.
  intros (la & lb & H)%Includes_chars Hc. rewrite H.
  apply in_or_app. right. apply in_or_app. now left.
Qed.

(** A character that occurs once in a list fixes the place of every
    occurrence of it. *)
Lemma unique_split {A} (c : A) (l1 l2 l1' l2' : list A) :
  ~ In c l1 -> ~ In c l2 ->
  l1 ++ c :: l2 = l1' ++ c :: l2' -> l1 = l1' /\ l2 = l2'.
Proof.
  revert l1'. induction l1 as [|x l1 IH]; intros [|y l1'] H1 H2 E; simpl in *.
  - now inversion E.
  - inversion E; subst. destruct H2. apply in_or_app. right. now left.
  - inversion E; subst. destruct H1. now left.
  - inversion E; subst. destruct (IH l1') as [-> ->]; auto.
Qed.

Lemma takeDigits_digits (s : string) : Js.allDigits (Js.takeDigits s) = true.
Proof.
  unfold Js.allDigits.
  induction s as [|c s IH]; simpl; [reflexivity|].
  destruct (Js.isDigit c) eqn:E; simpl; [|reflexivity].
  now rewrite E.
Qed.

Lemma execLitDigits_digits (lit s d : string) :
  Js.execLitDigits lit s = Some d -> Js.allDigits d = true.
Proof.
  induction s as [|c s IH]; simpl.
  - destruct (Js.stripPrefix lit ""); [|discriminate].
    intros [= <-]. apply takeDigits_digits.
  - destruct (Js.stripPrefix lit (String c s)); [|exact IH].
    intros [= <-]. apply takeDigits_digits.
Qed.

Lemma allDigits_not_In (d : string) (c : ascii) :
  Js.allDigits d = true -> Js.isDigit c = false -> ~ In c (Js.chars d).
Proof.
  unfold Js.allDigits. intros H Hc Hin.
  rewrite forallb_forall in H. specialize (H c Hin). congruence.
Qed.

Lemma stripPrefix_app (p s : string) : Js.stripPrefix p (p +:+ s) = Some s.
Proof.
  induction p as [|c p IH]; simpl; [reflexivity|].
  now rewrite Ascii.eqb_refl.
Qed.

Lemma stripPrefix_Some (p s r : string) :
  Js.stripPrefix p s = Some r -> s = p +:+ r.
Proof.
  revert s. induction p as [|c p IH]; intros s; simpl.
  - now intros [= ->].
  - destruct s as [|b s]; [discriminate|].
    destruct (Ascii.eqb c b) eqn:E; [|discriminate].
    apply Ascii.eqb_eq in E. subst b. intros H%IH. now subst.
Qed.

Lemma execLitDigits_head (lit s r : string) :
  Js.stripPrefix lit s = Some r ->
  Js.execLitDigits lit s = Some (Js.takeDigits r).
Proof. intros H. destruct s; simpl; now rewrite H. Qed.

Lemma stripPrefix_None (p s b : string) :
  Js.stripPrefix p s = None -> s <> p +:+ b.
Proof. intros E ->. rewrite stripPrefix_app in E. discriminate. Qed.

(** The pattern matches exactly when its literal occurs: the group of
    digits may be empty. *)
Lemma execLitDigits_None (lit s : string) :
  Js.execLitDigits lit s = None <-> ~ Js.Includes s lit.
Proof.
  induction s as [|c s IH].
  - simpl. destruct (Js.stripPrefix lit "") eqn:E.
    + split; [discriminate|]. intros H. destruct H.
      apply stripPrefix_Some in E. exists "", s. simpl. exact E.
    + split; [|reflexivity]. intros _ (a & b & H).
      destruct a; [|discriminate]. simpl in H.
      now apply (stripPrefix_None _ _ b) in E.
  - simpl. destruct (Js.stripPrefix lit (String c s)) eqn:E.
    + split; [discriminate|]. intros H. destruct H.
      apply stripPrefix_Some in E. exists "", s0. simpl. exact E.
    + rewrite IH. split.
      * intros Hn (a & b & H). destruct a as [|x a].
        -- simpl in H. now apply (stripPrefix_None _ _ b) in E.
        -- simpl in H. inversion H; subst. apply Hn. now exists a, b.
      * intros Hn (a & b & H). apply Hn. exists (String c a), b.
        simpl. now rewrite H.
Qed.

End StringFacts.

(** ** The message *)

(** Both sides of a string equation as lists of characters, appended to
    the right. *)
Ltac flatten :=
  repeat rewrite chars_app; unfold Js.chars;
  repeat first [rewrite <- app_assoc | progress simpl].
Ltac by_chars := apply chars_inj; flatten.

Section MessageFacts.

Lemma buildMessage_words (words : string) (floats : option string)
    (mrg : bool) :
  Js.Includes (buildMessage words floats mrg) (words +:+ " words").
Proof.
  exists "There are ",
    (" " +:+ floatMsg floats +:+ "in the "
       +:+ (if mrg then "LaTeX project" else "opened LaTeX file") +:+ ".").
  unfold buildMessage. by_chars. reflexivity.
Qed.

Lemma buildMessage_ending (words : string) (floats : option string)
    (mrg : bool) :
  Js.EndsWith (buildMessage words floats mrg)
    (if mrg then "in the LaTeX project." else "in the opened LaTeX file.").
Proof.
  exists ("There are " +:+ words +:+ " words " +:+ floatMsg floats).
  unfold buildMessage. destruct mrg; by_chars; reflexivity.
Qed.

Lemma floatClause_paren (m : string) (plural : bool) :
  In paren (Js.chars (floatClause m plural)).
Proof.
  unfold floatClause. rewrite !chars_app.
  apply in_or_app; right. apply in_or_app; right. apply in_or_app; right.
  simpl. right. now left.
Qed.

(** Without a float message there is no parenthesis in the message, so
    no float clause either. *)
Lemma buildMessage_no_clause (words : string) (floats : option string)
    (mrg : bool) (m : string) (plural : bool) :
  Js.allDigits words = true -> floatMsg floats = "" ->
  ~ Js.Includes (buildMessage words floats mrg) (floatClause m plural).
Proof.
  intros Hw Hf Hin.
  apply (Includes_In _ _ paren) in Hin; [|apply floatClause_paren].
  unfold buildMessage in Hin. rewrite Hf in Hin.
  rewrite !chars_app in Hin.
  apply in_app_or in Hin as [Hin|Hin];
    [simpl in Hin; unfold paren in Hin; intuition discriminate|].
  apply in_app_or in Hin as [Hin|Hin];
    [revert Hin; apply allDigits_not_In; [exact Hw | reflexivity]|].
  destruct mrg; simpl in Hin; unfold paren in Hin; intuition discriminate.
Qed.

Lemma last_two {A} (l l' : list A) (a b a' b' : A) :
  l ++ [a; b] = l' ++ [a'; b'] -> a = a'.
Proof.
  change (l ++ [a; b]) with (l ++ [a] ++ [b]).
  change (l' ++ [a'; b']) with (l' ++ [a'] ++ [b']).
  rewrite !app_assoc. intros [H _]%app_inj_tail.
  now apply app_inj_tail in H as [_ H].
Qed.

Lemma withFloats_clause (words m : string) (plural mrg : bool) :
  Js.Includes (withFloats words m plural mrg) (floatClause m plural).
Proof.
  exists ("There are " +:+ words +:+ " words "),
    (" in the " +:+ (if mrg then "LaTeX project" else "opened LaTeX file")
       +:+ ".").
  unfold withFloats, floatClause.
  destruct plural, mrg; by_chars; reflexivity.
Qed.

(** The clause of the other number is not in it: the one parenthesis of
    the message fixes where a clause would sit, and the letter two
    places before it differs. *)
Lemma withFloats_other_clause (words m : string) (plural mrg : bool) :
  Js.allDigits words = true -> Js.allDigits m = true ->
  ~ Js.Includes (withFloats words m plural mrg) (floatClause m (negb plural)).
Proof.
  intros Hw Hm (la & lb & H)%Includes_chars.
  set (stem := Js.chars "There are " ++ Js.chars words
                 ++ Js.chars " words and " ++ Js.chars m
                 ++ Js.chars " floa").
  set (tail := Js.chars "tables, figures, etc.) in the "
                 ++ Js.chars (if mrg then "LaTeX project"
                              else "opened LaTeX file") ++ Js.chars ".").
  assert (Hmsg : Js.chars (withFloats words m plural mrg)
                 = (stem ++ (if plural then ["t"; "s"; " "] else ["t"; " "])%char)
                     ++ paren :: tail).
  { unfold withFloats, stem, tail.
    destruct plural, mrg; flatten; reflexivity. }
  set (cstem := Js.chars "and " ++ Js.chars m ++ Js.chars " floa").
  assert (Hcl : Js.chars (floatClause m (negb plural))
                = (cstem ++ (if plural then ["t"; " "] else ["t"; "s"; " "])%char)
                    ++ paren :: Js.chars "tables, figures, etc.)").
  { unfold floatClause, cstem. destruct plural; flatten; reflexivity. }
  rewrite Hmsg, Hcl in H.
  assert (Hp : Js.isDigit paren = false) by reflexivity.
  assert (Hstem : ~ In paren
                    (stem ++ (if plural then ["t"; "s"; " "] else ["t"; " "])%char)).
  { unfold stem. rewrite !in_app_iff.
    pose proof (allDigits_not_In _ _ Hw Hp).
    pose proof (allDigits_not_In _ _ Hm Hp).
    unfold paren in *.
    destruct plural; simpl; intuition discriminate. }
  assert (Htail : ~ In paren tail).
  { unfold tail, paren. rewrite !in_app_iff.
    destruct mrg; simpl; intuition discriminate. }
  replace (la ++ ((cstem ++ (if plural then ["t"; " "] else ["t"; "s"; " "])%char)
                    ++ paren :: Js.chars "tables, figures, etc.)") ++ lb)
    with ((la ++ cstem ++ (if plural then ["t"; " "] else ["t"; "s"; " "])%char)
            ++ paren :: (Js.chars "tables, figures, etc.)" ++ lb)) in H
    by (repeat rewrite <- app_assoc; reflexivity).
  apply unique_split in H as [H _]; [|exact Hstem|exact Htail].
  destruct plural.
  - change (stem ++ ["t"; "s"; " "]%char)
      with (stem ++ ["t"%char] ++ ["s"; " "]%char) in H.
    rewrite !app_assoc in H. apply last_two in H. discriminate.
  - change (la ++ cstem ++ ["t"; "s"; " "]%char)
      with (la ++ cstem ++ ["t"%char] ++ ["s"; " "]%char) in H.
    rewrite !app_assoc in H. apply last_two in H. discriminate.
Qed.

End MessageFacts.

(** ** What one call does to the world *)

Section Calls.

Variable host : Host.

Lemma lookup_snoc {A} (l : list A) (x : A) : (l ++ [x]) !! length l = Some x.
Proof. now apply list_lookup_middle. Qed.

Lemma alter_snoc {A} (f : A -> A) (l : list A) (x : A) :
  alter f (length l) (l ++ [x]) = l ++ [f x].
Proof.
  replace (length l) with (length l + 0)%nat by lia.
  now rewrite alter_app_r.
Qed.

Ltac run_methods :=
  unfold runTeXCount, fs_chmodSync, bind, Array_from, Array_includes,
    Array_elements, Array_push, logger_log, logger_logCommand, cs_spawn,
    setTimeout, promise_then, getThis, throw,
    effect, update, ret, bind, with_arrays, with_trace, with_procs,
    with_this, with_timers, spawnOutcome, spawned, refused, spawnArgs; simpl.

Lemma runTeXCount_outcome (file : string) (mrg : bool) (w : World) :
  runTeXCount host file mrg w = runTeXCountOutcome host file mrg w.
Proof.
  unfold runTeXCountOutcome, dockerCommand.
  destruct w as [c h ps ts q tr]. run_methods.
  destruct (useDocker c); simpl;
    [destruct (String.eqb (platform host) "win32"); simpl;
     [|destruct (chmodSync_ok host _); simpl; [|reflexivity]]|];
    rewrite lookup_snoc; simpl;
    destruct (mrg && negb (existsb (String.eqb "-merge")
                             (default [] (h !! commandArgs c))));
    simpl; repeat rewrite alter_snoc; rewrite lookup_snoc; simpl;
    match goal with
    | |- context [spawn_ok host ?c ?a ?d] => destruct (spawn_ok host c a d)
    end;
    simpl; repeat rewrite <- app_assoc; simpl; try rewrite app_nil_r;
    reflexivity.
Qed.

Lemma countOnSaveIfEnabled_off (file : string) (w : World) :
  autoRunEnabled (this w) = false ->
  countOnSaveIfEnabled host file w = Returns tt w.
Proof. intros H. unfold countOnSaveIfEnabled, bind, getThis. now rewrite H. Qed.

Lemma countOnSaveIfEnabled_suppressed (file : string) (w : World) :
  autoRunEnabled (this w) = true -> disableCountAfterSave (this w) = true ->
  countOnSaveIfEnabled host file w
  = Returns tt
      (with_trace
         (fun t => t ++ [Log "Auto texcount is temporarily disabled during a second."])
         w).
Proof.
  intros H1 H2. unfold countOnSaveIfEnabled, bind, getThis.
  now rewrite H1, H2.
Qed.

Lemma countOnSaveIfEnabled_armed (file : string) (w : World) :
  autoRunEnabled (this w) = true -> disableCountAfterSave (this w) = false ->
  countOnSaveIfEnabled host file w
  = (let* promise := runTeXCount host file true in
     promise_then promise ThenUpdateWordCount) (armed w file).
Proof.
  intros H1 H2. unfold countOnSaveIfEnabled at 1.
  unfold bind at 1, getThis. rewrite H1, H2. simpl.
  unfold armed. destruct w as [c h ps ts q tr].
  unfold bind at 1 2 3, logger_log, setTimeout, bind, effect, update; simpl.
  unfold with_timers, with_trace, with_this; simpl.
  rewrite <- app_assoc. reflexivity.
Qed.

End Calls.

(** ** Calls that leave the results and the promises alone *)

Create HintDb quiet.

Section QuietCalls.

Variable host : Host.

Lemma sameClosure_refl (p : Proc) : sameClosure p p.
Proof. now repeat split. Qed.

Lemma quiet_refl (w : World) : quiet w w.
Proof.
  split; [reflexivity|]. split; [reflexivity|]. split.
  - intros pid p H. exists p. split; [exact H|apply sameClosure_refl].
  - intros pid p' H Hge. apply lookup_lt_Some in H. lia.
Qed.

Lemma quiet_trans (w1 w2 w3 : World) :
  quiet w1 w2 -> quiet w2 w3 -> quiet w1 w3.
Proof.
  intros (Ha & Hb & Hc & Hd) (Ha' & Hb' & Hc' & Hd').
  split; [congruence|]. split; [congruence|]. split.
  - intros pid p H. destruct (Hc pid p H) as (p2 & H2 & m2 & e2 & s2).
    destruct (Hc' pid p2 H2) as (p3 & H3 & m3 & e3 & s3).
    exists p3. repeat split; congruence.
  - intros pid p3 H3 Hge.
    destruct (procs w2 !! pid) as [p2|] eqn:H2.
    + destruct (Hd pid p2 H2 Hge) as (e2 & s2).
      destruct (Hc' pid p2 H2) as (q & Hq & _ & e3 & s3).
      rewrite H3 in Hq. injection Hq as <-. split; congruence.
    + apply lookup_ge_None in H2. now apply (Hd' pid p3 H3).
Qed.

(** A world that differs only outside the results and the processes. *)
Lemma quiet_frame (w w' : World) :
  wordCount (this w') = wordCount (this w) ->
  texCountMessage (this w') = texCountMessage (this w) ->
  procs w' = procs w -> quiet w w'.
Proof.
  intros Ha Hb Hc. split; [exact Ha|]. split; [exact Hb|]. split.
  - intros pid p H. exists p. rewrite Hc. split; [exact H|].
    apply sameClosure_refl.
  - intros pid p' H Hge. rewrite Hc in H. apply lookup_lt_Some in H. lia.
Qed.

Lemma quiet_snoc (w : World) (p0 : Proc) :
  exited p0 = false -> settled p0 = false ->
  quiet w (with_procs (fun ps => ps ++ [p0]) w).
Proof.
  intros He Hs. split; [reflexivity|]. split; [reflexivity|]. split.
  - intros pid p H. exists p. split; [|apply sameClosure_refl].
    simpl. now apply lookup_app_l_Some.
  - simpl. intros pid p' H Hge. rewrite lookup_app_r in H by exact Hge.
    destruct (pid - length (procs w))%nat; [|discriminate].
    injection H as <-. now split.
Qed.

Lemma quiet_alter (w : World) (f : Proc -> Proc) (i : nat) :
  (forall p, sameClosure p (f p)) ->
  quiet w (with_procs (alter f i) w).
Proof.
  intros Hf. split; [reflexivity|]. split; [reflexivity|]. split.
  - intros pid p H. simpl.
    destruct (decide (i = pid)) as [->|Hne].
    + exists (f p). rewrite list_lookup_alter_eq, H. split; [reflexivity|].
      apply Hf.
    + exists p. rewrite list_lookup_alter_ne by exact Hne.
      split; [exact H|apply sameClosure_refl].
  - simpl. intros pid p' H Hge. apply lookup_lt_Some in H.
    rewrite length_alter in H. lia.
Qed.

Lemma Quiet_ret {A} (a : A) : Quiet (ret a).
Proof. intros w. apply quiet_refl. Qed.

Lemma Quiet_throw {A} : Quiet (@throw A).
Proof. intros w. apply quiet_refl. Qed.

Lemma Quiet_getThis : Quiet getThis.
Proof. intros w. apply quiet_refl. Qed.

Lemma Quiet_bind {A B} (m : M A) (k : A -> M B) :
  Quiet m -> (forall a, Quiet (k a)) -> Quiet (bind m k).
Proof.
  intros Hm Hk w. unfold bind. specialize (Hm w).
  destruct (m w) as [a w'|w']; simpl in *; [|exact Hm].
  eapply quiet_trans; [exact Hm|apply Hk].
Qed.

Lemma Quiet_update (f : World -> World) :
  (forall w, quiet w (f w)) -> Quiet (update f).
Proof. intros H w. apply H. Qed.

Lemma Quiet_effect (e : Effect) : Quiet (effect e).
Proof. apply Quiet_update. intros w. now apply quiet_frame. Qed.

Lemma Quiet_status (f : StatusBarItem -> StatusBarItem) :
  Quiet (update (with_this (set_status f))).
Proof. apply Quiet_update. intros w. now apply quiet_frame. Qed.

Lemma Quiet_flag (b : bool) :
  Quiet (update (with_this (set_disableCountAfterSave b))).
Proof. apply Quiet_update. intros w. now apply quiet_frame. Qed.

Lemma Quiet_arrays (f : list (list string) -> list (list string)) :
  Quiet (update (with_arrays f)).
Proof. apply Quiet_update. intros w. now apply quiet_frame. Qed.

Lemma Quiet_timers (f : list Timer -> list Timer) :
  Quiet (update (with_timers f)).
Proof. apply Quiet_update. intros w. now apply quiet_frame. Qed.

Lemma Quiet_Array_from (a : ref) : Quiet (Array_from a).
Proof. intros w. now apply quiet_frame. Qed.

Lemma Quiet_Array_new (xs : list string) : Quiet (Array_new xs).
Proof. intros w. now apply quiet_frame. Qed.

Lemma Quiet_Array_elements (a : ref) : Quiet (Array_elements a).
Proof. intros w. apply quiet_refl. Qed.

Hint Resolve Quiet_ret Quiet_throw Quiet_getThis Quiet_effect Quiet_status
  Quiet_flag Quiet_arrays Quiet_timers Quiet_Array_from Quiet_Array_new
  Quiet_Array_elements : quiet.

(** Splits a method into its statements and closes the ones that are in
    the hint base. *)
Ltac quiet_steps :=
  repeat first
    [ solve [auto with quiet]
    | apply Quiet_bind; [|intros ?]
    | match goal with
      | |- Quiet (if ?b then _ else _) => destruct b
      | |- Quiet (match ?r with
                  | ThenUpdateWordCount => _
                  | ThenShowInformationMessage => _ end) => destruct r
      end ].

Lemma Quiet_Array_includes (a : ref) (x : string) : Quiet (Array_includes a x).
Proof. unfold Array_includes. quiet_steps. Qed.

Lemma Quiet_Array_push (a : ref) (x : string) : Quiet (Array_push a x).
Proof. unfold Array_push. quiet_steps. Qed.

Lemma Quiet_logger_log (msg : string) : Quiet (logger_log msg).
Proof. unfold logger_log. quiet_steps. Qed.

Lemma Quiet_logger_logCommand (msg command : string) (args : ref) :
  Quiet (logger_logCommand msg command args).
Proof. unfold logger_logCommand. quiet_steps. Qed.

Lemma Quiet_setTimeout (d : Z) : Quiet (setTimeout d).
Proof. unfold setTimeout. quiet_steps. Qed.

Lemma Quiet_promise_then (pid : nat) (r : Reaction) :
  Quiet (promise_then pid r).
Proof.
  apply Quiet_update. intros w. apply quiet_alter.
  intros p. now repeat split.
Qed.

Lemma Quiet_cs_spawn (command : string) (args : ref) (cwd : string)
    (mrg : bool) :
  Quiet (cs_spawn host command args cwd mrg).
Proof.
  unfold cs_spawn. quiet_steps. intros w. now apply quiet_snoc.
Qed.

Lemma Quiet_fs_chmodSync (path : string) (mode : Z) :
  Quiet (fs_chmodSync host path mode).
Proof. unfold fs_chmodSync. quiet_steps. Qed.

Hint Resolve Quiet_Array_includes Quiet_Array_push Quiet_logger_log
  Quiet_logger_logCommand Quiet_setTimeout Quiet_promise_then
  Quiet_cs_spawn Quiet_fs_chmodSync : quiet.

Lemma Quiet_loadConfiguration (configuration : Config) :
  Quiet (loadConfiguration configuration).
Proof.
  unfold loadConfiguration. apply Quiet_bind; [apply Quiet_Array_new|].
  intros args. apply Quiet_update. intros w. now apply quiet_frame.
Qed.

Lemma Quiet_updateWordCount : Quiet updateWordCount.
Proof. unfold updateWordCount. quiet_steps. Qed.

Hint Resolve Quiet_loadConfiguration Quiet_updateWordCount : quiet.

Lemma Quiet_updateStatusVisibility : Quiet updateStatusVisibility.
Proof. unfold updateStatusVisibility. quiet_steps. Qed.

Lemma Quiet_runTeXCount (file : string) (mrg : bool) :
  Quiet (runTeXCount host file mrg).
Proof. unfold runTeXCount. quiet_steps. Qed.

Hint Resolve Quiet_updateStatusVisibility Quiet_runTeXCount : quiet.

Lemma Quiet_countOnSaveIfEnabled (file : string) :
  Quiet (countOnSaveIfEnabled host file).
Proof. unfold countOnSaveIfEnabled. quiet_steps. Qed.

Lemma Quiet_count (file : string) (mrg : bool) : Quiet (count host file mrg).
Proof. unfold count. quiet_steps. Qed.

Lemma Quiet_onTimeout : Quiet onTimeout.
Proof. unfold onTimeout. quiet_steps. Qed.

Lemma Quiet_onStdoutData (pid : nat) (chunk : string) :
  Quiet (onStdoutData pid chunk).
Proof.
  apply Quiet_update. intros w. apply quiet_alter.
  intros p. now repeat split.
Qed.

Lemma Quiet_onStderrData (pid : nat) (chunk : string) :
  Quiet (onStderrData pid chunk).
Proof.
  apply Quiet_update. intros w. apply quiet_alter.
  intros p. now repeat split.
Qed.

Lemma Quiet_onError (p : Proc) (err : string) : Quiet (onError p err).
Proof. unfold onError, logger_logError, logger_showErrorMessage. quiet_steps. Qed.

Lemma Quiet_react (r : Reaction) : Quiet (react r).
Proof. unfold react, showInformationMessage. quiet_steps. Qed.

Lemma Quiet_runReactions (rs : list Reaction) : Quiet (runReactions rs).
Proof.
  induction rs as [|r rs IH]; simpl; [apply Quiet_ret|].
  apply Quiet_bind; [apply Quiet_react|intros _; exact IH].
Qed.

Lemma Quiet_drainMicrotasks : Quiet drainMicrotasks.
Proof.
  intros w. unfold drainMicrotasks.
  eapply quiet_trans; [|apply Quiet_runReactions].
  now apply quiet_frame.
Qed.

End QuietCalls.

(** ** The exit handler and the turns of the event loop *)

Section Loop.

Variable host : Host.

Lemma dispatch_exit (w : World) (pid : nat) (p : Proc) (code : ExitCode) :
  procs w !! pid = Some p -> exited p = false ->
  dispatch host (ProcessExit pid code) w
  = onExit pid p code (with_procs (alter markExited pid) w).
Proof. intros H E. simpl. now rewrite H, E. Qed.

Lemma dispatch_exit_again (w : World) (pid : nat) (p : Proc)
    (code : ExitCode) :
  procs w !! pid = Some p -> exited p = true ->
  dispatch host (ProcessExit pid code) w = Returns tt w.
Proof. intros H E. simpl. now rewrite H, E. Qed.

Lemma dispatch_exit_unknown (w : World) (pid : nat) (code : ExitCode) :
  procs w !! pid = None ->
  dispatch host (ProcessExit pid code) w = Returns tt w.
Proof. intros H. simpl. now rewrite H. Qed.

Lemma onExit_failed (w : World) (pid : nat) (p : Proc) (code : ExitCode) :
  code <> Some 0 ->
  onExit pid p code w
  = Returns tt (with_trace (fun t => t ++ failureLogged code p) w).
Proof.
  intros H. unfold onExit. rewrite bool_decide_eq_false_2 by exact H. simpl.
  unfold logger_logError, logger_showErrorMessage, bind, effect, update.
  unfold with_trace, failureLogged; simpl. now rewrite <- app_assoc.
Qed.

Lemma onExit_unparsed (w : World) (pid : nat) (p : Proc) :
  Js.execLitDigits wordsPattern (stdout p) = None ->
  onExit pid p (Some 0) w = Returns tt w.
Proof.
  intros H. unfold onExit. rewrite bool_decide_eq_true_2 by reflexivity.
  simpl. now rewrite H.
Qed.

Lemma onExit_parsed (w : World) (pid : nat) (p : Proc) (words1 : string) :
  Js.execLitDigits wordsPattern (stdout p) = Some words1 ->
  onExit pid p (Some 0) w = resolve pid (with_this (stored p words1) w).
Proof.
  intros H. unfold onExit. rewrite bool_decide_eq_true_2 by reflexivity.
  simpl. rewrite H. reflexivity.
Qed.

Lemma resolve_returns (pid : nat) (w : World) :
  exists w', resolve pid w = Returns tt w' /\
    this w' = this w /\ arrays w' = arrays w /\ timers w' = timers w /\
    trace w' = trace w /\
    (forall i, i <> pid -> procs w' !! i = procs w !! i) /\
    (forall p, procs w !! pid = Some p ->
       procs w' !! pid
       = Some (mkProc (merge p) (stdout p) (stderr p) (exited p) true
                 (reaction p)) /\
       microtasks w'
       = microtasks w ++ (if settled p then [] else option_list (reaction p))).
Proof.
  unfold resolve. destruct (procs w !! pid) as [p|] eqn:H.
  - destruct (settled p) eqn:S.
    + exists w. do 6 (split; [reflexivity|]).
      intros q [= <-]. rewrite S, app_nil_r. split; [|reflexivity].
      destruct p; simpl in *. now subst.
    + eexists. split; [reflexivity|]. simpl. do 4 (split; [reflexivity|]).
      split.
      * intros i Hi. now rewrite list_lookup_insert_ne.
      * intros q [= <-]. rewrite S. split; [|reflexivity].
        apply list_lookup_insert_eq. now apply lookup_lt_Some in H.
  - exists w. do 6 (split; [reflexivity|]). intros q; discriminate.
Qed.

Lemma drain_idle (w : World) :
  microtasks w = [] -> drainMicrotasks w = Returns tt w.
Proof.
  intros H. unfold drainMicrotasks. rewrite H. simpl. unfold ret.
  destruct w; simpl in *. now subst.
Qed.

(** The reactions only touch the status bar item and show messages. *)
Lemma runReactions_frame (rs : list Reaction) (w : World) :
  exists (st : StatusBarItem) (shown : list Effect),
    runReactions rs w
    = Returns tt
        (with_trace (fun t => t ++ shown)
           (with_this (set_status (fun _ => st)) w)).
Proof.
  revert w. induction rs as [|r rs IH]; intros w.
  - exists (status (this w)), []. simpl. unfold ret.
    destruct w as [[] ? ? ? ? ?]; unfold with_trace; simpl.
    now rewrite app_nil_r.
  - simpl. unfold bind.
    assert (exists st shown,
               react r w
               = Returns tt (with_trace (fun t => t ++ shown)
                               (with_this (set_status (fun _ => st)) w)))
      as (st & shown & ->).
    { destruct w as [[? ? ? ? ? ? msg wc st] ? ? ? ? tr]. destruct r; simpl.
      - unfold updateWordCount, bind, getThis, update; simpl.
        destruct (String.eqb wc "");
          eexists _, []; unfold with_trace, with_this, set_status; simpl;
          rewrite app_nil_r; reflexivity.
      - unfold bind, getThis, showInformationMessage, effect, update.
        exists st, [ShowInformationMessage msg]. reflexivity. }
    destruct (IH (with_trace (fun t => t ++ shown)
                    (with_this (set_status (fun _ => st)) w)))
      as (st' & shown' & ->).
    exists st', (shown ++ shown'). unfold with_trace, with_this, set_status.
    simpl. now rewrite <- app_assoc.
Qed.

End Loop.

Section Steps.

Variable host : Host.

Lemma keeps_quiet (pid : nat) (p : Proc) (w w' : World) :
  procs w !! pid = Some p -> quiet w w' -> keeps pid p w'.
Proof. intros H (_ & _ & Hq & _). exact (Hq pid p H). Qed.

Lemma Quiet_dispatch (e : Event) :
  (forall pid code, e <> ProcessExit pid code) -> Quiet (dispatch host e).
Proof.
  intros Hne. destruct e as [affects cfg|ed|file|file mrg|tid|pid chunk
                            |pid chunk|pid err|pid code]; simpl.
  - unfold onDidChangeConfiguration. destruct affects; [|apply Quiet_ret].
    apply Quiet_bind; [apply Quiet_loadConfiguration|].
    intros _. apply Quiet_updateStatusVisibility.
  - unfold onDidChangeActiveTextEditor.
    destruct ed as [[[] cfg]|]; try apply Quiet_status.
    apply Quiet_bind; [apply Quiet_loadConfiguration|].
    intros _. apply Quiet_updateStatusVisibility.
  - apply Quiet_countOnSaveIfEnabled.
  - apply Quiet_count.
  - intros w. destruct (timers w !! tid) as [t|]; [|apply quiet_refl].
    destruct (fired t); [apply quiet_refl|].
    apply (Quiet_bind (update (with_timers (alter markFired tid)))
             (fun _ => onTimeout)).
    + apply Quiet_timers.
    + intros _. apply Quiet_onTimeout.
  - apply Quiet_onStdoutData.
  - apply Quiet_onStderrData.
  - intros w. destruct (procs w !! pid) as [p|]; [|apply quiet_refl].
    apply Quiet_onError.
  - now destruct (Hne pid code).
Qed.

Lemma step_quiet (w : World) (e : Event) :
  (forall pid code, e <> ProcessExit pid code) -> quiet w (step host w e).
Proof.
  intros Hne. unfold step.
  eapply quiet_trans; [apply (Quiet_dispatch e Hne)|].
  apply Quiet_drainMicrotasks.
Qed.

(** The exit of another process, or a second exit event, leaves the
    closure of a process as it is. *)
Lemma step_exit_elsewhere (w : World) (pid pid' : nat) (p : Proc)
    (code : ExitCode) :
  procs w !! pid = Some p -> pid' <> pid \/ exited p = true ->
  keeps pid p (step host w (ProcessExit pid' code)).
Proof.
  intros H Hor. unfold step.
  destruct (procs w !! pid') as [p2|] eqn:H2;
    [destruct (exited p2) eqn:E2|].
  - rewrite (dispatch_exit_again host w pid' p2 code H2 E2). simpl.
    eapply keeps_quiet; [exact H|apply Quiet_drainMicrotasks].
  - assert (Hne : pid' <> pid).
    { destruct Hor as [Hne|Hex]; [exact Hne|]. intros ->. congruence. }
    rewrite (dispatch_exit host w pid' p2 code H2 E2).
    assert (H' : procs (with_procs (alter markExited pid') w) !! pid = Some p).
    { simpl. now rewrite list_lookup_alter_ne. }
    destruct (decide (code = Some 0)) as [->|Hcode].
    + destruct (Js.execLitDigits wordsPattern (stdout p2)) as [words1|] eqn:Hw.
      * rewrite (onExit_parsed _ _ _ _ Hw).
        destruct (resolve_returns pid'
                    (with_this (stored p2 words1)
                       (with_procs (alter markExited pid') w)))
          as (w' & -> & _ & _ & _ & _ & Hother & _).
        simpl. eapply keeps_quiet; [|apply Quiet_drainMicrotasks].
        rewrite Hother by congruence. exact H'.
      * rewrite (onExit_unparsed _ _ _ Hw). simpl.
        eapply keeps_quiet; [exact H'|apply Quiet_drainMicrotasks].
    + rewrite (onExit_failed _ _ _ _ Hcode). simpl.
      eapply keeps_quiet; [|apply Quiet_drainMicrotasks]. exact H'.
  - rewrite (dispatch_exit_unknown host w pid' code H2). simpl.
    eapply keeps_quiet; [exact H|apply Quiet_drainMicrotasks].
Qed.

Lemma step_keeps (w : World) (e : Event) (pid : nat) (p : Proc) :
  procs w !! pid = Some p ->
  exited p = true \/ (forall code, e <> ProcessExit pid code) ->
  keeps pid p (step host w e).
Proof.
  intros H Hor.
  destruct e as [affects cfg|ed|file|file mrg|tid|i chunk|i chunk|i err
                |pid' code];
    try (eapply keeps_quiet; [exact H|]; now apply step_quiet).
  apply step_exit_elsewhere; [exact H|].
  destruct Hor as [Hex|Hne]; [now right|].
  left. intros ->. now apply (Hne code).
Qed.

(** Once a process has exited, no later event settles its promise. *)
Lemma run_keeps_exited (es : list Event) (w : World) (pid : nat) (p : Proc) :
  procs w !! pid = Some p -> exited p = true -> keeps pid p (run host w es).
Proof.
  revert w p. induction es as [|e es IH]; intros w p H Hex; simpl.
  - exists p. split; [exact H|apply sameClosure_refl].
  - destruct (step_keeps w e pid p H (or_introl Hex))
      as (p1 & H1 & m1 & e1 & s1).
    destruct (IH (step host w e) p1 H1 ltac:(congruence))
      as (p2 & H2 & m2 & e2 & s2).
    exists p2. repeat split; congruence.
Qed.

(** Between two turns no microtask waits, and a process that has not
    exited has a pending promise. *)
Lemma step_idle (w : World) (e : Event) : microtasks (step host w e) = [].
Proof.
  unfold step, drainMicrotasks.
  match goal with
  | |- context [runReactions ?rs ?w0] =>
      destruct (runReactions_frame rs w0) as (st & shown & ->)
  end.
  reflexivity.
Qed.

Lemma quiet_pending (w w' : World) :
  quiet w w' -> pending w -> pending w'.
Proof.
  intros (_ & _ & Hold & Hnew) Hp pid p' H' E'.
  destruct (procs w !! pid) as [p|] eqn:H.
  - destruct (Hold pid p H) as (q & Hq & _ & e1 & s1).
    rewrite H' in Hq. injection Hq as <-.
    rewrite s1. apply (Hp pid p H). congruence.
  - apply lookup_ge_None in H. now apply (Hnew pid p' H').
Qed.

Lemma step_pending (w : World) (e : Event) :
  pending w -> pending (step host w e).
Proof.
  intros Hp.
  destruct e as [affects cfg|ed|file|file mrg|tid|i chunk|i chunk|i err
                |pid code];
    try (eapply quiet_pending; [|exact Hp]; now apply step_quiet).
  unfold step.
  destruct (procs w !! pid) as [p|] eqn:H; [destruct (exited p) eqn:E|].
  - rewrite (dispatch_exit_again host w pid p code H E).
    eapply quiet_pending; [apply Quiet_drainMicrotasks|exact Hp].
  - rewrite (dispatch_exit host w pid p code H E).
    assert (Hp1 : forall w1,
               (forall i, i <> pid -> procs w1 !! i = procs w !! i) ->
               (forall q, procs w1 !! pid = Some q -> exited q = true) ->
               pending w1).
    { intros w1 Hother Hpid i q Hq Eq.
      destruct (decide (i = pid)) as [->|Hne].
      - rewrite (Hpid q Hq) in Eq. discriminate.
      - rewrite (Hother i Hne) in Hq. now apply (Hp i q Hq). }
    assert (Hother : forall i, i <> pid ->
                       alter markExited pid (procs w) !! i = procs w !! i)
      by (intros i Hi; now apply list_lookup_alter_ne).
    assert (Hpid : alter markExited pid (procs w) !! pid = Some (markExited p))
      by now rewrite list_lookup_alter_eq, H.
    eapply quiet_pending; [apply Quiet_drainMicrotasks|].
    destruct (decide (code = Some 0)) as [->|Hc].
    + destruct (Js.execLitDigits wordsPattern (stdout p)) as [words1|] eqn:Hw.
      * rewrite (onExit_parsed _ _ _ _ Hw).
        destruct (resolve_returns pid
                    (with_this (stored p words1)
                       (with_procs (alter markExited pid) w)))
          as (w1 & -> & _ & _ & _ & _ & Ho & Hq).
        simpl. apply Hp1.
        -- intros i Hi. rewrite (Ho i Hi). now apply Hother.
        -- destruct (Hq _ Hpid) as (Hq1 & _). intros q. rewrite Hq1.
           now intros [= <-].
      * rewrite (onExit_unparsed _ _ _ Hw). simpl. apply Hp1; [exact Hother|].
        simpl. intros q. rewrite Hpid. now intros [= <-].
    + rewrite (onExit_failed _ _ _ _ Hc). simpl. apply Hp1; [exact Hother|].
      simpl. intros q. rewrite Hpid. now intros [= <-].
  - rewrite (dispatch_exit_unknown host w pid code H).
    eapply quiet_pending; [apply Quiet_drainMicrotasks|exact Hp].
Qed.

Lemma start_betweenTurns (configuration : Config) :
  microtasks (start configuration) = [] /\ pending (start configuration).
Proof.
  assert (Hprocs : procs (start configuration) = []
                   /\ microtasks (start configuration) = []).
  { unfold start, constructor, loadConfiguration, updateStatusVisibility,
      updateWordCount, Array_new, bind, getThis, update. simpl.
    destruct (String.eqb (texcount_autorun configuration) "onSave"); simpl;
      now split. }
  destruct Hprocs as (Hprocs & Hq). split; [exact Hq|].
  intros pid p H. rewrite Hprocs in H. discriminate.
Qed.

(** Every world the event loop reaches is between two turns. *)
Lemma run_betweenTurns (configuration : Config) (es : list Event) :
  microtasks (run host (start configuration) es) = [] /\
  pending (run host (start configuration) es).
Proof.
  assert (H : forall w, microtasks w = [] /\ pending w ->
                microtasks (run host w es) = [] /\ pending (run host w es)).
  { induction es as [|e es IH]; intros w Hw; simpl; [exact Hw|].
    apply IH. split; [apply step_idle|]. apply step_pending, Hw. }
  apply H, start_betweenTurns.
Qed.

End Steps.

(** * The status bar *)

Section StatusBar.

Variable host : Host.

Lemma updateWordCount_returns (w : World) :
  exists st : StatusBarItem,
    updateWordCount w = Returns tt (with_this (set_status (fun _ => st)) w).
Proof.
  destruct w as [[? ? ? ? ? ? msg wc st] ? ? ? ? tr].
  unfold updateWordCount, bind, getThis, update; simpl.
  destruct (String.eqb wc ""); eexists; reflexivity.
Qed.

(** C9: a refresh of the status display returns, and in the world it
    leaves the text and the tooltip of the status bar item are the empty
    string when the stored word count is the empty string, and otherwise
    the text is the word count followed by " words" and the tooltip is
    the stored message; the visibility of the item, the other fields of
    the counter, the arrays, the processes, the timers, the microtasks
    and the trace are as before. *)
Theorem updateWordCount_display (w : World) :
  let w' := worldOf (updateWordCount w) in
  updateWordCount w = Returns tt w' /\
  (wordCount (this w) = "" ->
     text (status (this w')) = "" /\ tooltip (status (this w')) = "") /\
  (wordCount (this w) <> "" ->
     text (status (this w')) = wordCount (this w) +:+ " words" /\
     tooltip (status (this w')) = texCountMessage (this w)) /\
  visible (status (this w')) = visible (status (this w)) /\
  wordCount (this w') = wordCount (this w) /\
  texCountMessage (this w') = texCountMessage (this w) /\
  useDocker (this w') = useDocker (this w) /\
  disableCountAfterSave (this w') = disableCountAfterSave (this w) /\
  autoRunEnabled (this w') = autoRunEnabled (this w) /\
  autoRunInterval (this w') = autoRunInterval (this w) /\
  commandArgs (this w') = commandArgs (this w) /\
  commandPath (this w') = commandPath (this w) /\
  arrays w' = arrays w /\ procs w' = procs w /\ timers w' = timers w /\
  microtasks w' = microtasks w /\ trace w' = trace w.
Proof.
  destruct w as [[? ? ? ? ? ? msg wc st] ? ? ? ? tr].
  unfold updateWordCount, bind, getThis, update; simpl.
  destruct (String.eqb wc "") eqn:E; simpl.
  - apply String.eqb_eq in E. split; [reflexivity|].
    split; [easy|]. split; [intros H; now destruct H|]. now repeat split.
  - apply String.eqb_neq in E. split; [reflexivity|].
    split; [intros H; now destruct E|]. split; [easy|]. now repeat split.
Qed.

(** C3, as stated, fails: with auto-run enabled, updateStatusVisibility
    does not trigger a count; no process is spawned. *)
Lemma updateStatusVisibility_triggers_no_count :
  autoRunEnabled (this (start onSaveConfig)) = true /\
  ~ countTriggered (start onSaveConfig)
      (worldOf (updateStatusVisibility (start onSaveConfig))).
Proof.
  split; [reflexivity|]. intros H. vm_compute in H.
  destruct H as [H|(command & args & cwd & [])]. lia.
Qed.

(** C3, amended: with auto-run enabled, updateStatusVisibility
    refreshes the text and the tooltip of the status bar item from the
    stored word count and message, as updateWordCount does, and shows
    the item, without running a count; with auto-run disabled it hides
    the item; either way no process is spawned and nothing is logged,
    and while auto-run is disabled a save changes nothing at all. *)
Theorem updateStatusVisibility_refreshes (w : World) :
  exists w' : World,
    updateStatusVisibility w = Returns tt w' /\
    procs w' = procs w /\ trace w' = trace w /\
    (autoRunEnabled (this w) = true ->
       exists w1, updateWordCount w = Returns tt w1 /\
         w' = with_this (set_status (set_visible true)) w1 /\
         visible (status (this w')) = true) /\
    (autoRunEnabled (this w) = false ->
       w' = with_this (set_status (set_visible false)) w /\
       visible (status (this w')) = false /\
       forall file, countOnSaveIfEnabled host file w = Returns tt w).
Proof.
  destruct (updateWordCount_returns w) as (st & Hu).
  unfold updateStatusVisibility, bind at 1, getThis.
  destruct (autoRunEnabled (this w)) eqn:E.
  - unfold bind, update. rewrite Hu. eexists. split; [reflexivity|].
    simpl. repeat split; try discriminate.
    intros _. eexists. repeat split.
  - unfold update. eexists. split; [reflexivity|]. simpl.
    repeat split; try discriminate.
    intros file. now apply countOnSaveIfEnabled_off.
Qed.

End StatusBar.

(** * Counting on save *)

Section OnSave.

Variable host : Host.

Lemma step_timer (w : World) (tid : nat) (t : Timer) :
  timers w !! tid = Some t -> fired t = false ->
  disableCountAfterSave (this (step host w (TimerFires tid))) = false.
Proof.
  intros H F. unfold step. simpl. rewrite H, F.
  unfold bind, update, onTimeout; simpl. unfold drainMicrotasks.
  match goal with
  | |- context [runReactions ?rs ?w0] =>
      destruct (runReactions_frame rs w0) as (st & shown & ->)
  end.
  reflexivity.
Qed.

(** C4: a call of countOnSaveIfEnabled that finds the suppression flag
    set spawns no process and changes nothing but the log, to which it
    adds one line (none when auto-run is off); a call that starts a
    count sets the flag and starts the timer, with the configured
    interval as its delay, before runTeXCount runs, and the flag is
    still set when the call is over; and the timer, when it fires,
    resets the flag in whatever state the processes are. *)
Theorem countOnSave_debounce (file : string) (w : World) :
  (disableCountAfterSave (this w) = true ->
     exists w',
       countOnSaveIfEnabled host file w = Returns tt w' /\
       this w' = this w /\ arrays w' = arrays w /\ procs w' = procs w /\
       timers w' = timers w /\ microtasks w' = microtasks w /\
       trace w'
       = trace w
           ++ (if autoRunEnabled (this w)
               then [Log "Auto texcount is temporarily disabled during a second."]
               else [])) /\
  (autoRunEnabled (this w) = true -> disableCountAfterSave (this w) = false ->
     countOnSaveIfEnabled host file w
     = (let* promise := runTeXCount host file true in
        promise_then promise ThenUpdateWordCount) (armed w file) /\
     disableCountAfterSave (this (armed w file)) = true /\
     timers (armed w file)
     = timers w ++ [mkTimer (autoRunInterval (this w)) false] /\
     disableCountAfterSave
       (this (worldOf (countOnSaveIfEnabled host file w))) = true) /\
  (forall (tid : nat) (t : Timer),
     timers w !! tid = Some t -> fired t = false ->
     disableCountAfterSave (this (step host w (TimerFires tid))) = false).
Proof.
  split; [|split].
  - intros Hd. destruct (autoRunEnabled (this w)) eqn:Ha.
    + rewrite (countOnSaveIfEnabled_suppressed host file w Ha Hd).
      eexists. split; [reflexivity|]. now repeat split.
    + rewrite (countOnSaveIfEnabled_off host file w Ha).
      exists w. rewrite app_nil_r. now repeat split.
  - intros Ha Hd.
    rewrite (countOnSaveIfEnabled_armed host file w Ha Hd).
    split; [reflexivity|]. split; [reflexivity|]. split; [reflexivity|].
    unfold bind. rewrite runTeXCount_outcome.
    unfold runTeXCountOutcome, spawnOutcome.
    simpl.
    destruct (useDocker (this w)); simpl;
      [destruct (String.eqb (platform host) "win32"); simpl;
       [|destruct (chmodSync_ok host _); simpl]|];
      try match goal with
          | |- context [spawn_ok host ?c ?a ?d] => destruct (spawn_ok host c a d)
          end;
      reflexivity.
  - intros tid t. apply step_timer.
Qed.

End OnSave.

(** The theorem at a counter that has just started a count on save. *)
Lemma countOnSave_debounce_witness :
  let w := step Posix.host (start onSaveConfig)
             (CallCountOnSaveIfEnabled "/home/u/main.tex") in
  disableCountAfterSave (this w) = true /\
  trace (worldOf (countOnSaveIfEnabled Posix.host "/home/u/main.tex" w))
  = trace w ++ [Log "Auto texcount is temporarily disabled during a second."] /\
  disableCountAfterSave (this (step Posix.host w (TimerFires 0))) = false.
Proof.
  intros w.
  destruct (countOnSave_debounce Posix.host "/home/u/main.tex" w)
    as (H1 & _ & H3).
  split; [reflexivity|]. split.
  - destruct (H1 eq_refl) as (w' & Hc & _ & _ & _ & _ & _ & Ht).
    rewrite Hc. simpl. rewrite Ht. reflexivity.
  - apply (H3 0%nat (mkTimer 1000 false)); reflexivity.
Defined.

(** * The exit of the process *)

Section Exit.

Variable host : Host.

Lemma step_exit_failed (w : World) (pid : nat) (p : Proc) (code : ExitCode) :
  microtasks w = [] -> procs w !! pid = Some p -> exited p = false ->
  code <> Some 0 ->
  step host w (ProcessExit pid code)
  = with_trace (fun t => t ++ failureLogged code p)
      (with_procs (alter markExited pid) w).
Proof.
  intros Hq H E Hc. unfold step.
  rewrite (dispatch_exit host w pid p code H E), (onExit_failed _ _ _ _ Hc).
  simpl. now rewrite drain_idle.
Qed.

Lemma step_exit_unparsed (w : World) (pid : nat) (p : Proc) :
  microtasks w = [] -> procs w !! pid = Some p -> exited p = false ->
  Js.execLitDigits wordsPattern (stdout p) = None ->
  step host w (ProcessExit pid (Some 0)) = with_procs (alter markExited pid) w.
Proof.
  intros Hq H E Hw. unfold step.
  rewrite (dispatch_exit host w pid p _ H E), (onExit_unparsed _ _ _ Hw).
  simpl. now rewrite drain_idle.
Qed.

(** After a successful parse the two results are the ones of this parse,
    whatever the reactions do afterwards. *)
Lemma step_exit_parsed (w : World) (pid : nat) (p : Proc) (words1 : string) :
  procs w !! pid = Some p -> exited p = false ->
  Js.execLitDigits wordsPattern (stdout p) = Some words1 ->
  let w' := step host w (ProcessExit pid (Some 0)) in
  wordCount (this w') = words1 /\
  texCountMessage (this w')
  = buildMessage words1 (Js.execLitDigits floatsPattern (stdout p)) (merge p) /\
  exists p', procs w' !! pid = Some p' /\ settled p' = true /\ exited p' = true.
Proof.
  intros H E Hw w'. unfold w', step.
  rewrite (dispatch_exit host w pid p _ H E), (onExit_parsed _ _ _ _ Hw).
  destruct (resolve_returns pid
              (with_this (stored p words1)
                 (with_procs (alter markExited pid) w)))
    as (w1 & -> & Hthis & _ & _ & _ & _ & Hpid).
  simpl.
  assert (Hl : procs (with_this (stored p words1)
                        (with_procs (alter markExited pid) w)) !! pid
               = Some (markExited p)).
  { simpl. now rewrite list_lookup_alter_eq, H. }
  destruct (Hpid _ Hl) as (Hp1 & _).
  destruct (Quiet_drainMicrotasks w1) as (Hwc & Hmsg & Hpr & _).
  rewrite Hwc, Hmsg, Hthis. simpl. split; [reflexivity|]. split; [reflexivity|].
  destruct (Hpr pid _ Hp1) as (p' & Hp' & _ & He & Hs).
  exists p'. simpl in *. now repeat split.
Qed.

Lemma exit_failed_from (w : World) (pid : nat) (p : Proc) (code : ExitCode) :
  microtasks w = [] -> procs w !! pid = Some p ->
  exited p = false -> settled p = false -> code <> Some 0 ->
  let w' := step host w (ProcessExit pid code) in
  trace w' = trace w ++ failureLogged code p /\
  this w' = this w /\
  forall es : list Event,
    exists p', procs (run host w' es) !! pid = Some p' /\ settled p' = false.
Proof.
  intros Hq H E S Hc w'. unfold w'.
  rewrite (step_exit_failed w pid p code Hq H E Hc).
  do 2 (split; [reflexivity|]). intros es.
  destruct (run_keeps_exited host es
              (with_trace (fun t => t ++ failureLogged code p)
                 (with_procs (alter markExited pid) w)) pid (markExited p))
    as (p' & Hp' & _ & _ & Hs).
  - simpl. now rewrite list_lookup_alter_eq, H.
  - reflexivity.
  - exists p'. split; [exact Hp'|]. simpl in Hs. congruence.
Qed.

Lemma exit_unparsed_from (w : World) (pid : nat) (p : Proc) :
  microtasks w = [] -> procs w !! pid = Some p ->
  exited p = false -> settled p = false ->
  Js.execLitDigits wordsPattern (stdout p) = None ->
  let w' := step host w (ProcessExit pid (Some 0)) in
  trace w' = trace w /\
  this w' = this w /\
  forall es : list Event,
    exists p', procs (run host w' es) !! pid = Some p' /\ settled p' = false.
Proof.
  intros Hq H E S Hw w'. unfold w'.
  rewrite (step_exit_unparsed w pid p Hq H E Hw).
  do 2 (split; [reflexivity|]). intros es.
  destruct (run_keeps_exited host es (with_procs (alter markExited pid) w)
              pid (markExited p))
    as (p' & Hp' & _ & _ & Hs).
  - simpl. now rewrite list_lookup_alter_eq, H.
  - reflexivity.
  - exists p'. split; [exact Hp'|]. simpl in Hs. congruence.
Qed.

(** C5: in every world the event loop reaches from the constructor, when
    a process of runTeXCount exits with a code other than 0 (or on a
    signal), the error is logged with the code and the standard error
    output, the error notification is shown, the stored word count and
    message stay as they were, and no later event resolves the promise:
    it is pending after the exit and after every sequence of events that
    follows. *)
Theorem exit_nonzero_unresolved (configuration : Config)
    (before : list Event) (pid : nat) (p : Proc) (code : ExitCode) :
  let w := run host (start configuration) before in
  procs w !! pid = Some p -> exited p = false -> code <> Some 0 ->
  let w' := step host w (ProcessExit pid code) in
  trace w'
  = trace w
      ++ [LogError "Cannot count words" (ErrExitCode code) (stderr p);
          ShowErrorMessage
            "TeXCount failed. Please refer to LaTeX Workshop Output for details."] /\
  wordCount (this w') = wordCount (this w) /\
  texCountMessage (this w') = texCountMessage (this w) /\
  forall after : list Event,
    exists p', procs (run host w' after) !! pid = Some p' /\ settled p' = false.
Proof.
  intros w H E Hc w'.
  destruct (run_betweenTurns host configuration before) as (Hq & Hp).
  destruct (exit_failed_from w pid p code Hq H E (Hp pid p H E) Hc)
    as (Ht & Hthis & Hnever).
  fold w' in Ht, Hthis, Hnever.
  split; [exact Ht|]. rewrite Hthis. now repeat split.
Qed.

(** C6: in every world the event loop reaches from the constructor, when
    a process of runTeXCount exits with code 0 and its output does not
    match the word pattern, the handler returns without an exception,
    nothing is logged and no notification is shown, the counter with its
    stored word count and message stays as it was, and no later event
    resolves the promise. *)
Theorem exit_unparsed_silent (configuration : Config) (before : list Event)
    (pid : nat) (p : Proc) :
  let w := run host (start configuration) before in
  procs w !! pid = Some p -> exited p = false ->
  Js.execLitDigits wordsPattern (stdout p) = None ->
  let w' := step host w (ProcessExit pid (Some 0)) in
  dispatch host (ProcessExit pid (Some 0)) w = Returns tt w' /\
  trace w' = trace w /\
  wordCount (this w') = wordCount (this w) /\
  texCountMessage (this w') = texCountMessage (this w) /\
  this w' = this w /\
  forall after : list Event,
    exists p', procs (run host w' after) !! pid = Some p' /\ settled p' = false.
Proof.
  intros w H E Hw w'.
  destruct (run_betweenTurns host configuration before) as (Hq & Hp).
  destruct (exit_unparsed_from w pid p Hq H E (Hp pid p H E) Hw)
    as (Ht & Hthis & Hnever).
  fold w' in Ht, Hthis, Hnever.
  split.
  - unfold w'. rewrite (step_exit_unparsed w pid p Hq H E Hw).
    now rewrite (dispatch_exit host w pid p _ H E), (onExit_unparsed _ _ _ Hw).
  - split; [exact Ht|]. rewrite Hthis. now repeat split.
Qed.

End Exit.

(** The theorem at a count whose process wrote to its standard error
    output and exited with code 1. *)
Lemma exit_nonzero_unresolved_witness :
  let w := run Posix.host (start onSaveConfig)
             [CallCount "/home/u/main.tex" true; StderrData 0 "no such file"] in
  let w' := step Posix.host w (ProcessExit 0 (Some 1)) in
  trace w'
  = trace w
      ++ [LogError "Cannot count words" (ErrExitCode (Some 1)) "no such file";
          ShowErrorMessage
            "TeXCount failed. Please refer to LaTeX Workshop Output for details."] /\
  wordCount (this w') = wordCount (this w) /\
  texCountMessage (this w') = texCountMessage (this w) /\
  forall after : list Event,
    exists p', procs (run Posix.host w' after) !! 0%nat = Some p' /\
               settled p' = false.
Proof.
  apply (exit_nonzero_unresolved Posix.host onSaveConfig
           [CallCount "/home/u/main.tex" true; StderrData 0 "no such file"]
           0%nat
           (mkProc true "" "no such file" false false
              (Some ThenShowInformationMessage)) (Some 1));
    [reflexivity | reflexivity | discriminate].
Defined.

(** The theorem at a count whose process printed something else than a
    word count and exited with code 0. *)
Lemma exit_unparsed_silent_witness :
  let w := run Posix.host (start onSaveConfig)
             [CallCount "/home/u/main.tex" true; StdoutData 0 "TeXcount 3.2"] in
  let w' := step Posix.host w (ProcessExit 0 (Some 0)) in
  dispatch Posix.host (ProcessExit 0 (Some 0)) w = Returns tt w' /\
  trace w' = trace w /\
  wordCount (this w') = wordCount (this w) /\
  texCountMessage (this w') = texCountMessage (this w) /\
  this w' = this w /\
  forall after : list Event,
    exists p', procs (run Posix.host w' after) !! 0%nat = Some p' /\
               settled p' = false.
Proof.
  apply (exit_unparsed_silent Posix.host onSaveConfig
           [CallCount "/home/u/main.tex" true; StdoutData 0 "TeXcount 3.2"]
           0%nat
           (mkProc true "TeXcount 3.2" "" false false
              (Some ThenShowInformationMessage)));
    reflexivity.
Defined.

(** * The two results *)

Section Results.

Variable host : Host.

Lemma step_results (w : World) (e : Event) :
  let w' := step host w e in
  (wordCount (this w') = wordCount (this w) /\
   texCountMessage (this w') = texCountMessage (this w)) \/
  (exists (pid : nat) (p : Proc) (words1 : string),
     e = ProcessExit pid (Some 0) /\
     procs w !! pid = Some p /\ exited p = false /\
     Js.execLitDigits wordsPattern (stdout p) = Some words1 /\
     wordCount (this w') = words1 /\
     texCountMessage (this w')
     = buildMessage words1 (Js.execLitDigits floatsPattern (stdout p))
         (merge p)).
Proof.
  intros w'. unfold w'.
  assert (Hq : forall w1, quiet w w1 ->
                 wordCount (this w1) = wordCount (this w) /\
                 texCountMessage (this w1) = texCountMessage (this w))
    by (intros w1 (Ha & Hb & _); now split).
  destruct e as [affects cfg|ed|file|file mrg|tid|i chunk|i chunk|i err
                |pid code];
    try (left; apply Hq; now apply step_quiet).
  destruct (procs w !! pid) as [p|] eqn:H; [destruct (exited p) eqn:E|].
  - left. apply Hq. unfold step.
    rewrite (dispatch_exit_again host w pid p code H E).
    apply Quiet_drainMicrotasks.
  - destruct (decide (code = Some 0)) as [->|Hc].
    + destruct (Js.execLitDigits wordsPattern (stdout p)) as [words1|] eqn:Hw.
      * right. exists pid, p, words1.
        destruct (step_exit_parsed host w pid p words1 H E Hw) as (Ha & Hb & _).
        now repeat split.
      * left. unfold step.
        rewrite (dispatch_exit host w pid p _ H E), (onExit_unparsed _ _ _ Hw).
        simpl.
        destruct (Quiet_drainMicrotasks (with_procs (alter markExited pid) w))
          as (Ha & Hb & _).
        rewrite Ha, Hb. now split.
    + left. unfold step.
      rewrite (dispatch_exit host w pid p _ H E), (onExit_failed _ _ _ _ Hc).
      simpl.
      destruct (Quiet_drainMicrotasks
                  (with_trace (fun t => t ++ failureLogged code p)
                     (with_procs (alter markExited pid) w)))
        as (Ha & Hb & _).
      rewrite Ha, Hb. now split.
  - left. apply Hq. unfold step.
    rewrite (dispatch_exit_unknown host w pid code H).
    apply Quiet_drainMicrotasks.
Qed.

Lemma run_paired (es : list Event) (w : World) :
  paired (this w) -> paired (this (run host w es)).
Proof.
  revert w. induction es as [|e es IH]; intros w Hp; simpl; [exact Hp|].
  apply IH.
  destruct (step_results w e) as [(Ha & Hb)|(pid & p & words1 & _ & _ & _ & _ & Ha & Hb)].
  - destruct Hp as [(H1 & H2)|(x & f & m & H1 & H2)].
    + left. split; congruence.
    + right. exists x, f, m. split; congruence.
  - right. eexists _, _, _. split; eassumption.
Qed.

(** C7: in every turn of the event loop, whatever the event or the call,
    the stored word count and message either both stay as they were or
    are both assigned from one successful parse in the exit handler of
    one process that exited with code 0; so a counter never holds a word
    count and a message that do not come from the same parse. *)
Theorem results_updated_together :
  (forall (w : World) (e : Event),
     let w' := step host w e in
     (wordCount (this w') = wordCount (this w) /\
      texCountMessage (this w') = texCountMessage (this w)) \/
     (exists (pid : nat) (p : Proc) (words1 : string),
        e = ProcessExit pid (Some 0) /\
        procs w !! pid = Some p /\ exited p = false /\
        Js.execLitDigits wordsPattern (stdout p) = Some words1 /\
        wordCount (this w') = words1 /\
        texCountMessage (this w')
        = buildMessage words1 (Js.execLitDigits floatsPattern (stdout p))
            (merge p))) /\
  (forall (configuration : Config) (es : list Event),
     paired (this (run host (start configuration) es))).
Proof.
  split; [exact step_results|].
  intros configuration es. apply run_paired. left.
  unfold start, constructor.
  assert (Hq : Quiet (loadConfiguration configuration ;; updateStatusVisibility)).
  { apply Quiet_bind; [apply Quiet_loadConfiguration|].
    intros _. apply Quiet_updateStatusVisibility. }
  destruct (Hq newWorld) as (Ha & Hb & _). now split.
Qed.

End Results.

(** * The arguments of the process *)

Section Arguments.

Variable host : Host.

Lemma includes_elem_of (x : string) (xs : list string) :
  existsb (String.eqb x) xs = true <-> x ∈ xs.
Proof.
  rewrite existsb_exists, list_elem_of_In. split.
  - intros (y & Hy & E). apply String.eqb_eq in E. now subst.
  - intros H. exists x. split; [exact H|apply String.eqb_refl].
Qed.

Lemma spawnArgs_closed (configured : list string) (file : string) (mrg : bool) :
  spawnArgs host configured file mrg
  = configured
      ++ (if decide (mrg = true /\ "-merge" ∉ configured) then ["-merge"] else [])
      ++ [path_basename host file].
Proof.
  unfold spawnArgs.
  destruct (existsb (String.eqb "-merge") configured) eqn:E.
  - apply includes_elem_of in E. rewrite andb_false_r.
    destruct (decide _) as [(_ & Hn)|_]; [now destruct Hn|reflexivity].
  - assert (Hn : "-merge" ∉ configured).
    { intros Hin%includes_elem_of. congruence. }
    rewrite andb_true_r.
    destruct (decide (mrg = true /\ "-merge" ∉ configured)) as [(-> & _)|Hd].
    + now rewrite <- app_assoc.
    + destruct mrg; [|reflexivity]. destruct Hd. now split.
Qed.

(** C8: the argument list handed to cs.spawn is a new array with the
    configured arguments, then "-merge" exactly when merge is true and
    the configured arguments do not hold it already, then the base name
    of the file as the last argument; the commandArgs field and the array
    it refers to are as before the call.  The call ends in one of three
    ways: cs.spawn returns and the process is spawned with this list;
    cs.spawn throws, after the list was built and logged, and there is no
    process; or the script of the Docker mode cannot be made executable
    and the call throws before it builds any list. *)
Theorem runTeXCount_arguments (file : string) (mrg : bool) (w : World)
    (configured : list string) :
  arrays w !! commandArgs (this w) = Some configured ->
  let args :=
    configured
      ++ (if decide (mrg = true /\ "-merge" ∉ configured) then ["-merge"] else [])
      ++ [path_basename host file] in
  let w' := worldOf (runTeXCount host file mrg w) in
  commandArgs (this w') = commandArgs (this w) /\
  arrays w' !! commandArgs (this w) = Some configured /\
  ((exists (command : string) (before : list Effect),
      (if useDocker (this w)
       then command = dockerCommand host /\
            (before = [Log "Use Docker to invoke the command."] \/
             before = [Log "Use Docker to invoke the command.";
                       ChmodSync command 493])
       else command = commandPath (this w) /\ before = []) /\
      arrays w' = arrays w ++ [args] /\
      ((spawn_ok host command args (path_dirname host file) = true /\
        runTeXCount host file mrg w = Returns (length (procs w)) w' /\
        procs w' = procs w ++ [mkProc mrg "" "" false false None] /\
        trace w'
        = trace w ++ before
            ++ [LogCommand "Count words using command." command args;
                Spawn command args (path_dirname host file)]) \/
       (spawn_ok host command args (path_dirname host file) = false /\
        runTeXCount host file mrg w = Throws w' /\
        procs w' = procs w /\
        trace w'
        = trace w ++ before
            ++ [LogCommand "Count words using command." command args]))) \/
   (runTeXCount host file mrg w = Throws w' /\
    arrays w' = arrays w /\ procs w' = procs w /\
    trace w' = trace w ++ [Log "Use Docker to invoke the command."])).
Proof.
  intros H args w'. unfold w'. rewrite runTeXCount_outcome.
  unfold runTeXCountOutcome.
  assert (Hs : forall command before,
             let o := spawnOutcome host w command before file mrg in
             commandArgs (this (worldOf o)) = commandArgs (this w) /\
             arrays (worldOf o) !! commandArgs (this w) = Some configured /\
             arrays (worldOf o) = arrays w ++ [args] /\
             ((spawn_ok host command args (path_dirname host file) = true /\
               o = Returns (length (procs w)) (worldOf o) /\
               procs (worldOf o)
               = procs w ++ [mkProc mrg "" "" false false None] /\
               trace (worldOf o)
               = trace w ++ before
                   ++ [LogCommand "Count words using command." command args;
                       Spawn command args (path_dirname host file)]) \/
              (spawn_ok host command args (path_dirname host file) = false /\
               o = Throws (worldOf o) /\
               procs (worldOf o) = procs w /\
               trace (worldOf o)
               = trace w ++ before
                   ++ [LogCommand "Count words using command." command args]))).
  { intros command before. unfold spawnOutcome, spawned, refused.
    rewrite H. simpl. rewrite spawnArgs_closed. fold args.
    destruct (spawn_ok host command args (path_dirname host file)); simpl.
    - split; [reflexivity|]. split; [now apply lookup_app_l_Some|].
      split; [reflexivity|]. left. now repeat split.
    - split; [reflexivity|]. split; [now apply lookup_app_l_Some|].
      split; [reflexivity|]. right. now repeat split. }
  destruct (useDocker (this w));
    [destruct (String.eqb (platform host) "win32");
     [|destruct (chmodSync_ok host (dockerCommand host))]|];
    try match goal with
        | |- context [spawnOutcome host w ?c ?b file mrg] =>
            destruct (Hs c b) as (H1 & H2 & H3 & H4);
            split; [exact H1|]; split; [exact H2|]; left; exists c, b;
            split; [split; [reflexivity|]; auto|]; split; [exact H3|exact H4]
        end.
  simpl. split; [reflexivity|]. split; [exact H|]. right. now repeat split.
Qed.

End Arguments.

(** The theorem at a counter configured with one argument, on a project
    file. *)
Lemma runTeXCount_arguments_witness :
  let w := start onSaveConfig in
  let w' := worldOf (runTeXCount Posix.host "/home/u/thesis/main.tex" true w) in
  arrays w !! commandArgs (this w) = Some ["-inc"] /\
  arrays w' !! commandArgs (this w') = Some ["-inc"] /\
  trace w'
  = trace w
      ++ [LogCommand "Count words using command." "texcount"
            ["-inc"; "-merge"; "main.tex"];
          Spawn "texcount" ["-inc"; "-merge"; "main.tex"] "/home/u/thesis"].
Proof.
  intros w w'. split; [reflexivity|].
  destruct (runTeXCount_arguments Posix.host "/home/u/thesis/main.tex" true w
              ["-inc"] eq_refl) as (H1 & H2 & _).
  split; [|reflexivity]. fold w' in H1, H2. now rewrite H1.
Defined.

(** * The message *)

Section Message.

Variable host : Host.

Lemma buildMessage_withFloats (words m : string) (mrg : bool) (M : N) :
  Js.parseInt m = Some M -> (0 < M)%N ->
  buildMessage words (Some m) mrg = withFloats words m (1 <? M)%N mrg.
Proof.
  intros H Hpos. unfold buildMessage, withFloats, floatMsg. rewrite H. simpl.
  apply N.ltb_lt in Hpos. now rewrite Hpos.
Qed.

Lemma floatMsg_zero (m : string) : Js.parseInt m = Some 0%N -> floatMsg (Some m) = "".
Proof. intros H. unfold floatMsg. now rewrite H. Qed.

(** C1: after an exit with code 0 whose output matched both patterns,
    with the digits [words1] for the words and the digits [floats1], of
    value [M], for the floats, the stored message includes the words
    digits followed by " words"; it includes a float clause exactly when
    [M] is positive; the clause is in the singular exactly when [M] is 1
    and in the plural exactly when [M] is greater than 1. *)
Theorem message_counts (w : World) (pid : nat) (p : Proc)
    (words1 floats1 : string) (M : N) :
  procs w !! pid = Some p -> exited p = false ->
  Js.execLitDigits wordsPattern (stdout p) = Some words1 ->
  Js.execLitDigits floatsPattern (stdout p) = Some floats1 ->
  Js.parseInt floats1 = Some M ->
  let message :=
    texCountMessage (this (step host w (ProcessExit pid (Some 0)))) in
  Js.Includes message (words1 +:+ " words") /\
  (Js.Includes message (floatClause floats1 false) \/
   Js.Includes message (floatClause floats1 true) <-> (0 < M)%N) /\
  (Js.Includes message (floatClause floats1 false) <-> M = 1%N) /\
  (Js.Includes message (floatClause floats1 true) <-> (1 < M)%N).
Proof.
  intros H E Hw Hf HM message.
  destruct (step_exit_parsed host w pid p words1 H E Hw) as (_ & Hmsg & _).
  unfold message. rewrite Hmsg, Hf. clear message Hmsg.
  split; [apply buildMessage_words|].
  pose proof (execLitDigits_digits _ _ _ Hw) as Dw.
  pose proof (execLitDigits_digits _ _ _ Hf) as Df.
  destruct (N.eq_dec M 0%N) as [->|Hpos].
  - pose proof (floatMsg_zero floats1 HM) as Hz.
    pose proof (fun b => buildMessage_no_clause words1 (Some floats1) (merge p)
                           floats1 b Dw Hz) as Hno.
    split; [|split]; (split; [intros Hin|intros Hn; lia]).
    + destruct Hin as [Hin|Hin]; now apply Hno in Hin.
    + now apply Hno in Hin.
    + now apply Hno in Hin.
  - assert (Hp : (0 < M)%N) by lia.
    rewrite (buildMessage_withFloats words1 floats1 (merge p) M HM Hp).
    pose proof (withFloats_clause words1 floats1 (1 <? M)%N (merge p)) as Hyes.
    pose proof (withFloats_other_clause words1 floats1 (1 <? M)%N (merge p) Dw Df)
      as Hno.
    destruct (1 <? M)%N eqn:E1; simpl in Hno.
    + apply N.ltb_lt in E1.
      split; [|split]; (split; [intros Hin|intros Hn]);
        try lia; try (now right); try assumption.
      now apply Hno in Hin.
    + apply N.ltb_ge in E1.
      split; [|split]; (split; [intros Hin|intros Hn]);
        try lia; try (now left); try assumption.
      now apply Hno in Hin.
Qed.

Lemma run_keeps_running (es : list Event) (w : World) (pid : nat) (p : Proc) :
  procs w !! pid = Some p ->
  forallb (fun e => negb (isExitOf pid e)) es = true ->
  keeps pid p (run host w es).
Proof.
  revert w p. induction es as [|e es IH]; intros w p H Hes; simpl.
  - exists p. split; [exact H|apply sameClosure_refl].
  - simpl in Hes. apply andb_prop in Hes as (He & Hes).
    destruct (step_keeps host w e pid p H) as (p1 & H1 & m1 & e1 & s1).
    { right. intros code ->. simpl in He. now rewrite Nat.eqb_refl in He. }
    destruct (IH (step host w e) p1 H1 Hes) as (p2 & H2 & m2 & e2 & s2).
    exists p2. repeat split; congruence.
Qed.

Lemma runTeXCount_process (file : string) (mrg : bool) (w w1 : World)
    (pid : nat) :
  runTeXCount host file mrg w = Returns pid w1 ->
  procs w1 !! pid = Some (mkProc mrg "" "" false false None).
Proof.
  rewrite runTeXCount_outcome. unfold runTeXCountOutcome, spawnOutcome.
  destruct (useDocker (this w));
    [destruct (String.eqb (platform host) "win32");
     [|destruct (chmodSync_ok host (dockerCommand host))]|];
    try match goal with
        | |- context [spawn_ok host ?c ?a ?d] => destruct (spawn_ok host c a d)
        end;
    intros E; try discriminate E; injection E as <- <-; simpl;
    apply lookup_snoc.
Qed.

(** C2: for a call of runTeXCount with the argument merge, to whose
    promise the caller attaches its reaction, followed by any events
    before the exit of the process, an exit with code 0 and an output
    that matches the word pattern stores a message that ends with "in the
    LaTeX project." when merge is true and with "in the opened LaTeX
    file." when it is false. *)
Theorem message_ending (file : string) (mrg : bool) (w w1 : World)
    (pid : nat) (r : Reaction) (es : list Event) (p : Proc)
    (words1 : string) :
  runTeXCount host file mrg w = Returns pid w1 ->
  forallb (fun e => negb (isExitOf pid e)) es = true ->
  let w2 := run host (worldOf (promise_then pid r w1)) es in
  procs w2 !! pid = Some p ->
  Js.execLitDigits wordsPattern (stdout p) = Some words1 ->
  Js.EndsWith
    (texCountMessage (this (step host w2 (ProcessExit pid (Some 0)))))
    (if mrg then "in the LaTeX project." else "in the opened LaTeX file.").
Proof.
  intros Hrun Hes w2 Hp Hw.
  pose proof (runTeXCount_process file mrg w w1 pid Hrun) as H1.
  destruct (run_keeps_running es (worldOf (promise_then pid r w1)) pid
              (mkProc mrg "" "" false false (Some r)))
    as (p' & Hp' & Hm & He & _); [|exact Hes|].
  { simpl. now rewrite list_lookup_alter_eq, H1. }
  fold w2 in Hp'. rewrite Hp in Hp'. injection Hp' as <-. simpl in Hm, He.
  destruct (step_exit_parsed host w2 pid p words1 Hp He Hw) as (_ & -> & _).
  rewrite Hm. apply buildMessage_ending.
Qed.

(** C10: the word pattern matches every output in which its literal
    occurs, digits or not; when the output begins with "Words in text: "
    and no digit follows, the group is empty, and an exit with code 0
    stores the empty string as the word count and a message that begins
    with "There are  words ", and resolves the promise. *)
Theorem empty_capture_resolves (w : World) (pid : nat) (p : Proc)
    (rest : string) :
  procs w !! pid = Some p -> exited p = false ->
  stdout p = "Words in text: " +:+ rest -> Js.takeDigits rest = "" ->
  let w' := step host w (ProcessExit pid (Some 0)) in
  (forall s : string,
     Js.Includes s "Words in text: " ->
     Js.execLitDigits wordsPattern s <> None) /\
  Js.execLitDigits wordsPattern (stdout p) = Some "" /\
  wordCount (this w') = "" /\
  texCountMessage (this w')
  = "There are  words "
      +:+ floatMsg (Js.execLitDigits floatsPattern (stdout p))
      +:+ "in the "
      +:+ (if merge p then "LaTeX project" else "opened LaTeX file") +:+ "." /\
  exists p', procs w' !! pid = Some p' /\ settled p' = true.
Proof.
  intros H E Hout Hrest w'.
  assert (Hw : Js.execLitDigits wordsPattern (stdout p) = Some "").
  { rewrite Hout, (execLitDigits_head _ _ rest); [now rewrite Hrest|].
    apply (stripPrefix_app wordsPattern). }
  destruct (step_exit_parsed host w pid p "" H E Hw)
    as (Ha & Hb & p' & Hp' & Hs & _).
  split; [intros s Hin Hnone; now apply execLitDigits_None in Hnone|].
  split; [exact Hw|]. split; [exact Ha|]. split; [exact Hb|].
  exists p'. now split.
Qed.

End Message.

(** ** On a sample output *)

(** The theorem at a count of the opened file whose process printed
    [sampleOutput]. *)
Lemma message_counts_witness :
  let w := run Posix.host (start onSaveConfig)
             [CallCount "/home/u/main.tex" false; StdoutData 0 sampleOutput] in
  let message :=
    texCountMessage (this (step Posix.host w (ProcessExit 0 (Some 0)))) in
  message
  = "There are 100 words and 3 floats (tables, figures, etc.) in the opened LaTeX file." /\
  Js.Includes message "100 words" /\
  (Js.Includes message "and 3 floats (tables, figures, etc.)" <-> (1 < 3)%N) /\
  ~ Js.Includes message "and 3 float (tables, figures, etc.)".
Proof.
  intros w message. split; [reflexivity|].
  destruct (message_counts Posix.host w 0%nat
              (mkProc false sampleOutput "" false false
                 (Some ThenShowInformationMessage))
              "100" "3" 3%N eq_refl eq_refl eq_refl eq_refl eq_refl)
    as (H1 & _ & H3 & H4).
  split; [exact H1|]. split; [exact H4|].
  intros Hin. apply H3 in Hin. discriminate.
Defined.

(** The theorem at the same count, from the call on. *)
Lemma message_ending_witness :
  let w1 := worldOf (runTeXCount Posix.host "/home/u/main.tex" false
                       (start onSaveConfig)) in
  let w2 := run Posix.host
              (worldOf (promise_then 0 ThenShowInformationMessage w1))
              [StdoutData 0 sampleOutput; TimerFires 0] in
  Js.EndsWith
    (texCountMessage (this (step Posix.host w2 (ProcessExit 0 (Some 0)))))
    "in the opened LaTeX file.".
Proof.
  intros w1 w2.
  apply (message_ending Posix.host "/home/u/main.tex" false
           (start onSaveConfig) w1 0%nat ThenShowInformationMessage
           [StdoutData 0 sampleOutput; TimerFires 0]
           (mkProc false sampleOutput "" false false
              (Some ThenShowInformationMessage))
           "100");
    reflexivity.
Defined.

(** The theorem at a count whose process printed the words line without
    a number. *)
Lemma empty_capture_resolves_witness :
  let w := run Posix.host (start onSaveConfig)
             [CallCount "/home/u/main.tex" true;
              StdoutData 0 ("Words in text: " +:+ LF)] in
  let w' := step Posix.host w (ProcessExit 0 (Some 0)) in
  wordCount (this w') = "" /\
  texCountMessage (this w') = "There are  words in the LaTeX project." /\
  exists p', procs w' !! 0%nat = Some p' /\ settled p' = true.
Proof.
  intros w w'.
  destruct (empty_capture_resolves Posix.host w 0%nat
              (mkProc true ("Words in text: " +:+ LF) "" false false
                 (Some ThenShowInformationMessage))
              LF eq_refl eq_refl eq_refl eq_refl)
    as (_ & _ & H2 & H3 & H4).
  split; [exact H2|]. split; [exact H3|exact H4].
Defined.

(** * Further properties of the counter *)

(** ** The turns in closed form *)

Section Turns.

Variable host : Host.

Lemma string_app_assoc (a b c : string) : (a +:+ b) +:+ c = a +:+ (b +:+ c).
Proof. apply chars_inj. rewrite !chars_app. symmetry. apply app_assoc. Qed.

Lemma string_app_empty (a : string) : a +:+ "" = a.
Proof. apply chars_inj. rewrite chars_app. apply app_nil_r. Qed.

Lemma updateWordCount_displayed (w : World) :
  updateWordCount w
  = Returns tt (with_this (set_status (displayed (this w))) w).
Proof.
  destruct w as [[? ? ? ? ? ? msg wc st] ? ? ? ? tr].
  unfold updateWordCount, displayed, bind, getThis, update; simpl.
  destruct (String.eqb wc ""); reflexivity.
Qed.

Lemma displayed_visible (c : Counter) (st : StatusBarItem) :
  visible (displayed c st) = visible st.
Proof. unfold displayed. now destruct (String.eqb (wordCount c) ""). Qed.

Lemma configure_returns (configuration : Config) (w : World) :
  (loadConfiguration configuration ;; updateStatusVisibility) w
  = Returns tt
      (configured configuration
         (refreshed (String.eqb (texcount_autorun configuration) "onSave")
            (this w)) w).
Proof.
  destruct w as [[? ? ? ? ? ? msg wc st] ? ? ? ? tr].
  unfold loadConfiguration, updateStatusVisibility, Array_new, configured,
    refreshed, bind, getThis, update; simpl.
  destruct (String.eqb (texcount_autorun configuration) "onSave"); simpl;
    [|reflexivity].
  rewrite updateWordCount_displayed. simpl. unfold displayed; simpl.
  destruct (String.eqb wc ""); reflexivity.
Qed.

Lemma runReactions_returns (rs : list Reaction) (w : World) :
  exists (st : StatusBarItem) (shown : list Effect),
    visible st = visible (status (this w)) /\
    runReactions rs w
    = Returns tt
        (with_trace (fun t => t ++ shown)
           (with_this (set_status (fun _ => st)) w)).
Proof.
  revert w. induction rs as [|r rs IH]; intros w.
  - exists (status (this w)), []. split; [reflexivity|]. simpl. unfold ret.
    destruct w as [[] ? ? ? ? ?]; unfold with_trace; simpl.
    now rewrite app_nil_r.
  - simpl. unfold bind.
    assert (exists st shown,
               visible st = visible (status (this w)) /\
               react r w
               = Returns tt (with_trace (fun t => t ++ shown)
                               (with_this (set_status (fun _ => st)) w)))
      as (st & shown & Hv & ->).
    { destruct r; simpl.
      - exists (displayed (this w) (status (this w))), [].
        split; [apply displayed_visible|].
        rewrite updateWordCount_displayed.
        destruct w as [[] ? ? ? ? ?]; unfold with_trace, with_this; simpl.
        now rewrite app_nil_r.
      - unfold bind, getThis, showInformationMessage, effect, update.
        exists (status (this w)),
          [ShowInformationMessage (texCountMessage (this w))].
        split; [reflexivity|]. destruct w as [[] ? ? ? ? ?]; reflexivity. }
    destruct (IH (with_trace (fun t => t ++ shown)
                    (with_this (set_status (fun _ => st)) w)))
      as (st' & shown' & Hv' & ->).
    exists st', (shown ++ shown'). split; [simpl in Hv'; congruence|].
    unfold with_trace, with_this, set_status. simpl. now rewrite <- app_assoc.
Qed.

(** The microtasks only rewrite the text and the tooltip of the status
    bar item and show messages. *)
Lemma drain_returns (w : World) :
  exists (st : StatusBarItem) (shown : list Effect),
    visible st = visible (status (this w)) /\
    worldOf (drainMicrotasks w)
    = mkWorld (set_status (fun _ => st) (this w)) (arrays w) (procs w)
        (timers w) [] (trace w ++ shown).
Proof.
  unfold drainMicrotasks.
  destruct (runReactions_returns (microtasks w)
              (with_microtasks (fun _ => []) w)) as (st & shown & Hv & ->).
  exists st, shown. split; [exact Hv|reflexivity].
Qed.

(** A call of [runTeXCount] with the reaction the caller attaches: it
    throws when the script cannot be made executable or when [cs.spawn]
    refuses the command, and no reaction is attached then. *)
Lemma calls_then (file : string) (mrg : bool) (r : Reaction) (w : World) :
  (let* promise := runTeXCount host file mrg in promise_then promise r) w
  = if chmodFails host w
    then Throws (with_trace
                   (fun t => t ++ [Log "Use Docker to invoke the command."]) w)
    else if spawnFails host w file mrg
    then Throws (refused host w (commandOf host w) (beforeSpawn host w)
                   file mrg)
    else Returns tt (counting host w file mrg r).
Proof.
  unfold bind. rewrite runTeXCount_outcome.
  unfold runTeXCountOutcome, spawnOutcome, chmodFails, spawnFails, counting,
    commandOf, beforeSpawn, spawned, refused, promise_then, update, with_procs.
  destruct (useDocker (this w)); simpl;
    [destruct (String.eqb (platform host) "win32"); simpl;
     [|destruct (chmodSync_ok host (dockerCommand host)); simpl;
       [|reflexivity]]|];
    match goal with
    | |- context [spawn_ok host ?c ?a ?d] => destruct (spawn_ok host c a d)
    end; simpl; try reflexivity;
    rewrite alter_snoc; reflexivity.
Qed.

End Turns.

(** ** The settings *)

Section Settings.

Variable host : Host.

(** Worlds with the same settings and the arrays of the first. *)
Lemma settingsOf_same (configuration : Config) (w w' : World) :
  autoRunEnabled (this w') = autoRunEnabled (this w) ->
  autoRunInterval (this w') = autoRunInterval (this w) ->
  commandPath (this w') = commandPath (this w) ->
  useDocker (this w') = useDocker (this w) ->
  commandArgs (this w') = commandArgs (this w) ->
  (forall xs, arrays w !! commandArgs (this w) = Some xs ->
              arrays w' !! commandArgs (this w) = Some xs) ->
  settingsOf configuration w -> settingsOf configuration w'.
Proof.
  intros H1 H2 H3 H4 H5 H6 (S1 & S2 & S3 & S4 & S5).
  unfold settingsOf. rewrite H1, H2, H3, H4, H5. repeat split; auto.
Qed.

Ltac same_settings :=
  eapply settingsOf_same; [..|eassumption]; simpl; try reflexivity;
  try (intros xs Hxs; simpl; first [exact Hxs | now apply lookup_app_l_Some]).

Lemma configured_settings (configuration : Config) (st : StatusBarItem)
    (w : World) :
  settingsOf configuration (configured configuration st w).
Proof. unfold settingsOf, configured. simpl. repeat split. apply lookup_snoc. Qed.

Lemma calls_then_settings (configuration : Config) (file : string)
    (mrg : bool) (r : Reaction) (w : World) :
  settingsOf configuration w ->
  settingsOf configuration
    (worldOf ((let* promise := runTeXCount host file mrg in
               promise_then promise r) w)).
Proof.
  intros S. rewrite calls_then.
  destruct (chmodFails host w); [|destruct (spawnFails host w file mrg)];
    simpl; same_settings.
Qed.

Lemma dispatch_settings (configuration : Config) (w : World) (e : Event) :
  settingsOf configuration w ->
  settingsOf (default configuration (loadedBy e))
    (worldOf (dispatch host e w)).
Proof.
  intros S.
  destruct e as [affects cfg|ed|file|file mrg|tid|i chunk|i chunk|i err
                |pid code]; simpl.
  - unfold onDidChangeConfiguration. destruct affects; simpl; [|exact S].
    rewrite configure_returns. apply configured_settings.
  - unfold onDidChangeActiveTextEditor.
    destruct ed as [[[] cfg]|]; simpl; try same_settings.
    rewrite configure_returns. apply configured_settings.
  - destruct (autoRunEnabled (this w)) eqn:Ha;
      [destruct (disableCountAfterSave (this w)) eqn:Hd|].
    + rewrite (countOnSaveIfEnabled_suppressed host file w Ha Hd). simpl.
      same_settings.
    + rewrite (countOnSaveIfEnabled_armed host file w Ha Hd).
      apply calls_then_settings. same_settings.
    + now rewrite (countOnSaveIfEnabled_off host file w Ha).
  - now apply calls_then_settings.
  - destruct (timers w !! tid) as [t|]; [|exact S].
    destruct (fired t); [exact S|]. simpl. same_settings.
  - same_settings.
  - same_settings.
  - destruct (procs w !! i) as [p|]; [|exact S]. simpl. same_settings.
  - destruct (procs w !! pid) as [p|] eqn:H; [|exact S].
    destruct (exited p) eqn:E; [exact S|].
    change ((update (with_procs (alter markExited pid)) ;; onExit pid p code) w)
      with (onExit pid p code (with_procs (alter markExited pid) w)).
    destruct (decide (code = Some 0)) as [->|Hc].
    + destruct (Js.execLitDigits wordsPattern (stdout p)) as [words1|] eqn:Hw.
      * rewrite (onExit_parsed _ _ _ _ Hw).
        destruct (resolve_returns pid
                    (with_this (stored p words1)
                       (with_procs (alter markExited pid) w)))
          as (w' & -> & Hthis & Harr & _).
        simpl. eapply settingsOf_same; [..|exact S];
          rewrite ?Hthis, ?Harr; simpl; try reflexivity.
        intros xs Hxs. exact Hxs.
      * rewrite (onExit_unparsed _ _ _ Hw). simpl. same_settings.
    + rewrite (onExit_failed _ _ _ _ Hc). simpl. same_settings.
Qed.

Lemma step_settings (configuration : Config) (w : World) (e : Event) :
  settingsOf configuration w ->
  settingsOf (default configuration (loadedBy e)) (step host w e).
Proof.
  intros S. apply (dispatch_settings _ _ e) in S. unfold step.
  destruct (drain_returns (worldOf (dispatch host e w)))
    as (st & shown & _ & ->).
  same_settings.
Qed.

Lemma run_settings (es : list Event) (configuration : Config) (w : World) :
  settingsOf configuration w ->
  settingsOf (lastConfig configuration es) (run host w es).
Proof.
  revert configuration w. induction es as [|e es IH]; intros c w S; simpl.
  - exact S.
  - apply IH. now apply step_settings.
Qed.

(** X1: in every world the event loop reaches, the five settings of the
    counter are the ones of the configuration loaded last, by the
    constructor, a change of the configuration that affects the counter
    or a switch to a TeX editor; the array of commandArgs holds the
    configured arguments only, however many counts ran since. *)
Theorem settings_follow_configuration (configuration : Config)
    (es : list Event) :
  settingsOf (lastConfig configuration es)
    (run host (start configuration) es).
Proof.
  apply run_settings. unfold start, constructor.
  rewrite configure_returns. apply configured_settings.
Qed.

End Settings.

(** ** The visibility of the status bar item *)

Section Visibility.

Variable host : Host.

Lemma calls_then_status (file : string) (mrg : bool) (r : Reaction)
    (w : World) :
  status (this (worldOf ((let* promise := runTeXCount host file mrg in
                          promise_then promise r) w)))
  = status (this w).
Proof.
  rewrite calls_then.
  now destruct (chmodFails host w), (spawnFails host w file mrg).
Qed.

Lemma dispatch_visible (w : World) (e : Event) :
  visible (status (this (worldOf (dispatch host e w))))
  = visibleAfter e (visible (status (this w))).
Proof.
  destruct e as [affects cfg|ed|file|file mrg|tid|i chunk|i chunk|i err
                |pid code]; unfold visibleAfter; simpl.
  - unfold onDidChangeConfiguration. destruct affects; simpl; [|reflexivity].
    rewrite configure_returns. simpl. unfold refreshed.
    now destruct (String.eqb (texcount_autorun cfg) "onSave").
  - unfold onDidChangeActiveTextEditor.
    destruct ed as [[[] cfg]|]; simpl; try reflexivity.
    rewrite configure_returns. simpl. unfold refreshed.
    now destruct (String.eqb (texcount_autorun cfg) "onSave").
  - destruct (autoRunEnabled (this w)) eqn:Ha;
      [destruct (disableCountAfterSave (this w)) eqn:Hd|].
    + now rewrite (countOnSaveIfEnabled_suppressed host file w Ha Hd).
    + rewrite (countOnSaveIfEnabled_armed host file w Ha Hd).
      now rewrite calls_then_status.
    + now rewrite (countOnSaveIfEnabled_off host file w Ha).
  - unfold count. now rewrite calls_then_status.
  - destruct (timers w !! tid) as [t|]; [|reflexivity].
    now destruct (fired t).
  - reflexivity.
  - reflexivity.
  - now destruct (procs w !! i).
  - destruct (procs w !! pid) as [p|] eqn:H; [|reflexivity].
    destruct (exited p) eqn:E; [reflexivity|].
    change ((update (with_procs (alter markExited pid)) ;; onExit pid p code) w)
      with (onExit pid p code (with_procs (alter markExited pid) w)).
    destruct (decide (code = Some 0)) as [->|Hc].
    + destruct (Js.execLitDigits wordsPattern (stdout p)) as [words1|] eqn:Hw.
      * rewrite (onExit_parsed _ _ _ _ Hw).
        destruct (resolve_returns pid
                    (with_this (stored p words1)
                       (with_procs (alter markExited pid) w)))
          as (w' & -> & Hthis & _).
        simpl. now rewrite Hthis.
      * now rewrite (onExit_unparsed _ _ _ Hw).
    + now rewrite (onExit_failed _ _ _ _ Hc).
Qed.

(** X2: the status bar item is shown or hidden by the listeners of the
    configuration and of the active editor only: after a turn that loads
    a configuration it is visible exactly when the auto-run setting is
    "onSave", after a switch to no editor or to an editor that is not a
    TeX one it is hidden, and every other turn, a finished count
    included, leaves it visible or hidden as it was. *)
Theorem visibility_by_listeners (w : World) (e : Event) :
  visible (status (this (step host w e)))
  = match loadedBy e with
    | Some configuration =>
        String.eqb (texcount_autorun configuration) "onSave"
    | None =>
        match e with
        | DidChangeActiveTextEditor _ => false
        | _ => visible (status (this w))
        end
    end.
Proof.
  unfold step.
  destruct (drain_returns (worldOf (dispatch host e w)))
    as (st & shown & Hv & ->).
  simpl. rewrite Hv. apply dispatch_visible.
Qed.

End Visibility.

(** ** The window of the debounce *)

Section Window.

Variable host : Host.

Lemma resolve_length (pid : nat) (w : World) :
  length (procs (worldOf (resolve pid w))) = length (procs w) /\
  this (worldOf (resolve pid w)) = this w.
Proof.
  unfold resolve. destruct (procs w !! pid) as [p|]; [|now split].
  destruct (settled p); [now split|]. simpl. now rewrite length_insert.
Qed.

Lemma dispatch_window (w : World) (e : Event) :
  insideWindow e = true -> disableCountAfterSave (this w) = true ->
  disableCountAfterSave (this (worldOf (dispatch host e w))) = true /\
  length (procs (worldOf (dispatch host e w))) = length (procs w).
Proof.
  intros He Hd.
  destruct e as [affects cfg|ed|file|file mrg|tid|i chunk|i chunk|i err
                |pid code]; try discriminate; simpl.
  - unfold onDidChangeConfiguration. destruct affects; simpl; [|now split].
    rewrite configure_returns. now split.
  - unfold onDidChangeActiveTextEditor.
    destruct ed as [[[] cfg]|]; simpl; try (now split).
    rewrite configure_returns. now split.
  - destruct (autoRunEnabled (this w)) eqn:Ha.
    + now rewrite (countOnSaveIfEnabled_suppressed host file w Ha Hd).
    + now rewrite (countOnSaveIfEnabled_off host file w Ha).
  - split; [exact Hd|]. apply length_alter.
  - split; [exact Hd|]. apply length_alter.
  - destruct (procs w !! i); now split.
  - destruct (procs w !! pid) as [p|] eqn:H; [|now split].
    destruct (exited p) eqn:E; [now split|].
    change ((update (with_procs (alter markExited pid)) ;; onExit pid p code) w)
      with (onExit pid p code (with_procs (alter markExited pid) w)).
    destruct (decide (code = Some 0)) as [->|Hc].
    + destruct (Js.execLitDigits wordsPattern (stdout p)) as [words1|] eqn:Hw.
      * rewrite (onExit_parsed _ _ _ _ Hw).
        destruct (resolve_length pid
                    (with_this (stored p words1)
                       (with_procs (alter markExited pid) w)))
          as (Hl & Hthis).
        rewrite Hl, Hthis. simpl. split; [exact Hd|apply length_alter].
      * rewrite (onExit_unparsed _ _ _ Hw). simpl.
        split; [exact Hd|apply length_alter].
    + rewrite (onExit_failed _ _ _ _ Hc). simpl.
      split; [exact Hd|apply length_alter].
Qed.

(** X6: while the suppression flag is set and until a timer fires, no
    turn started by a save, by a change of the configuration or of the
    editor, or by a process spawns a process or clears the flag: only a
    timer ends the window, and only the manual count gets around it. *)
Theorem debounce_window (w : World) (es : list Event) :
  disableCountAfterSave (this w) = true ->
  forallb insideWindow es = true ->
  disableCountAfterSave (this (run host w es)) = true /\
  length (procs (run host w es)) = length (procs w).
Proof.
  revert w. induction es as [|e es IH]; intros w Hd Hes; simpl.
  - now split.
  - simpl in Hes. apply andb_prop in Hes as (He & Hes).
    destruct (dispatch_window w e He Hd) as (Hd1 & Hl1).
    assert (Hstep : disableCountAfterSave (this (step host w e)) = true /\
                    length (procs (step host w e)) = length (procs w)).
    { unfold step.
      destruct (drain_returns (worldOf (dispatch host e w)))
        as (st & shown & _ & ->).
      simpl. now split. }
    destruct Hstep as (Hd2 & Hl2).
    destruct (IH (step host w e) Hd2 Hes) as (Hd3 & Hl3).
    split; [exact Hd3|congruence].
Qed.

End Window.

(** The theorem after a save that started a count: two more saves, the
    output and the exit of the process, and a change of the
    configuration. *)
Lemma debounce_window_witness :
  let w := step Posix.host (start onSaveConfig)
             (CallCountOnSaveIfEnabled "/home/u/main.tex") in
  let es := [CallCountOnSaveIfEnabled "/home/u/main.tex";
             StdoutData 0 sampleOutput;
             ProcessExit 0 (Some 0);
             DidChangeConfiguration true onSaveConfig;
             CallCountOnSaveIfEnabled "/home/u/other.tex"] in
  disableCountAfterSave (this (run Posix.host w es)) = true /\
  length (procs (run Posix.host w es)) = 1%nat.
Proof.
  intros w es.
  exact (debounce_window Posix.host w es eq_refl eq_refl).
Defined.

(** ** The output of a process *)

Section Output.

Variable host : Host.

Lemma extends_nothing (pid : nat) (e : Event) (p : Proc) :
  stdoutChunk pid e = "" -> stderrChunk pid e = "" -> extends pid e p p.
Proof.
  intros H1 H2. unfold extends. rewrite H1, H2.
  now rewrite !string_app_empty.
Qed.

Lemma calls_then_lookup (file : string) (mrg : bool) (r : Reaction)
    (w : World) (pid : nat) (p : Proc) :
  procs w !! pid = Some p ->
  procs (worldOf ((let* promise := runTeXCount host file mrg in
                   promise_then promise r) w)) !! pid = Some p.
Proof.
  intros H. rewrite calls_then.
  destruct (chmodFails host w); [|destruct (spawnFails host w file mrg)];
    simpl; first [exact H|now apply lookup_app_l_Some].
Qed.

Lemma dispatch_output (w : World) (e : Event) (pid : nat) (p : Proc) :
  procs w !! pid = Some p -> isExitOf pid e = false ->
  exists p', procs (worldOf (dispatch host e w)) !! pid = Some p' /\
             extends pid e p p'.
Proof.
  intros H He.
  assert (Hsame : forall w', procs w' !! pid = Some p ->
                    stdoutChunk pid e = "" -> stderrChunk pid e = "" ->
                    exists p', procs w' !! pid = Some p' /\ extends pid e p p').
  { intros w' H' H1 H2. exists p. split; [exact H'|].
    now apply extends_nothing. }
  destruct e as [affects cfg|ed|file|file mrg|tid|i chunk|i chunk|i err
                |i code]; simpl.
  - apply Hsame; try reflexivity.
    unfold onDidChangeConfiguration. destruct affects; simpl; [|exact H].
    now rewrite configure_returns.
  - apply Hsame; try reflexivity. unfold onDidChangeActiveTextEditor.
    destruct ed as [[[] cfg]|]; simpl; try exact H.
    now rewrite configure_returns.
  - apply Hsame; try reflexivity.
    destruct (autoRunEnabled (this w)) eqn:Ha;
      [destruct (disableCountAfterSave (this w)) eqn:Hd|].
    + now rewrite (countOnSaveIfEnabled_suppressed host file w Ha Hd).
    + rewrite (countOnSaveIfEnabled_armed host file w Ha Hd).
      now apply calls_then_lookup.
    + now rewrite (countOnSaveIfEnabled_off host file w Ha).
  - apply Hsame; try reflexivity. unfold count. now apply calls_then_lookup.
  - apply Hsame; try reflexivity.
    destruct (timers w !! tid) as [t|]; [|exact H].
    now destruct (fired t).
  - unfold extends. simpl. destruct (Nat.eqb_spec i pid) as [->|Hne].
    + eexists. rewrite list_lookup_alter_eq, H. split; [reflexivity|].
      simpl. now rewrite string_app_empty.
    + exists p. rewrite list_lookup_alter_ne by exact Hne.
      split; [exact H|]. now rewrite !string_app_empty.
  - unfold extends. simpl. destruct (Nat.eqb_spec i pid) as [->|Hne].
    + eexists. rewrite list_lookup_alter_eq, H. split; [reflexivity|].
      simpl. now rewrite string_app_empty.
    + exists p. rewrite list_lookup_alter_ne by exact Hne.
      split; [exact H|]. now rewrite !string_app_empty.
  - apply Hsame; try reflexivity. now destruct (procs w !! i).
  - apply Hsame; try reflexivity.
    simpl in He. apply Nat.eqb_neq in He.
    destruct (procs w !! i) as [q|] eqn:Hq; [|exact H].
    destruct (exited q) eqn:E; [exact H|].
    change ((update (with_procs (alter markExited i)) ;; onExit i q code) w)
      with (onExit i q code (with_procs (alter markExited i) w)).
    assert (H' : procs (with_procs (alter markExited i) w) !! pid = Some p).
    { simpl. now rewrite list_lookup_alter_ne. }
    destruct (decide (code = Some 0)) as [->|Hc].
    + destruct (Js.execLitDigits wordsPattern (stdout q)) as [words1|] eqn:Hw.
      * rewrite (onExit_parsed _ _ _ _ Hw).
        destruct (resolve_returns i
                    (with_this (stored q words1)
                       (with_procs (alter markExited i) w)))
          as (w' & -> & _ & _ & _ & _ & Hother & _).
        simpl. rewrite Hother by congruence. exact H'.
      * now rewrite (onExit_unparsed _ _ _ Hw).
    + now rewrite (onExit_failed _ _ _ _ Hc).
Qed.

Lemma step_output (w : World) (e : Event) (pid : nat) (p : Proc) :
  procs w !! pid = Some p -> isExitOf pid e = false ->
  exists p', procs (step host w e) !! pid = Some p' /\ extends pid e p p'.
Proof.
  intros H He. destruct (dispatch_output w e pid p H He) as (p' & Hp' & Hx).
  exists p'. split; [|exact Hx]. unfold step.
  destruct (drain_returns (worldOf (dispatch host e w)))
    as (st & shown & _ & ->).
  exact Hp'.
Qed.

(** Chunks on the standard output leave the stored results as they
    are. *)
Lemma run_stdout_results (chunks : list string) (w : World) (pid : nat) :
  let w' := run host w (map (StdoutData pid) chunks) in
  wordCount (this w') = wordCount (this w) /\
  texCountMessage (this w') = texCountMessage (this w).
Proof.
  revert w. induction chunks as [|c cs IH]; intros w; simpl; [now split|].
  destruct (IH (step host w (StdoutData pid c))) as (H1 & H2).
  destruct (step_quiet host w (StdoutData pid c)) as (Q1 & Q2 & _).
  { intros ? ?. discriminate. }
  split; congruence.
Qed.

Lemma run_app (es es' : list Event) (w : World) :
  run host w (es ++ es') = run host (run host w es) es'.
Proof. unfold run. apply fold_left_app. Qed.

(** X3: until a process exits, its two accumulators hold what they held
    plus the chunks the data events of this process brought, in the order
    of arrival, whatever other events come in between; and the parse at
    the exit event reads exactly the standard output accumulated until
    then: a pattern cut by the boundary of two chunks is matched as in
    one piece, while the chunks that arrive after the exit event are not
    parsed, so that an output that is complete only after the exit
    stores nothing. *)
Theorem output_accumulates (es : list Event) (chunks : list string)
    (w : World) (pid : nat) (p : Proc) :
  procs w !! pid = Some p ->
  forallb (fun e => negb (isExitOf pid e)) es = true ->
  let out := stdout p +:+ stdoutOf pid es in
  let w1 := run host w es in
  let w2 := run host w
              (es ++ ProcessExit pid (Some 0) :: map (StdoutData pid) chunks) in
  (exists p', procs w1 !! pid = Some p' /\
              stdout p' = out /\
              stderr p' = stderr p +:+ stderrOf pid es) /\
  (exited p = false ->
   match Js.execLitDigits wordsPattern out with
   | Some words1 =>
       wordCount (this w2) = words1 /\
       texCountMessage (this w2)
       = buildMessage words1 (Js.execLitDigits floatsPattern out) (merge p)
   | None =>
       wordCount (this w2) = wordCount (this w1) /\
       texCountMessage (this w2) = texCountMessage (this w1)
   end).
Proof.
  intros H Hes out w1 w2.
  assert (Hacc : exists p', procs w1 !! pid = Some p' /\
                            stdout p' = out /\
                            stderr p' = stderr p +:+ stderrOf pid es).
  { unfold w1, out. clear w1 w2 out. revert w p H Hes.
    induction es as [|e es IH]; intros w p H Hes; simpl.
    - exists p. now rewrite !string_app_empty.
    - simpl in Hes. apply andb_prop in Hes as (He & Hes).
      apply negb_true_iff in He.
      destruct (step_output w e pid p H He) as (p1 & H1 & Ho & Herr).
      destruct (IH (step host w e) p1 H1 Hes) as (p2 & H2 & Ho2 & Herr2).
      exists p2. split; [exact H2|].
      rewrite Ho2, Herr2, Ho, Herr. now rewrite !string_app_assoc. }
  split; [exact Hacc|]. intros Hex.
  destruct Hacc as (p' & Hp' & Hout & _).
  destruct (run_keeps_running host es w pid p H Hes)
    as (q & Hq & Hm & He & _).
  fold w1 in Hq. rewrite Hp' in Hq. injection Hq as <-.
  assert (Hex' : exited p' = false) by congruence.
  unfold w2. rewrite run_app. fold w1.
  change (run host w1 (ProcessExit pid (Some 0) :: map (StdoutData pid) chunks))
    with (run host (step host w1 (ProcessExit pid (Some 0)))
            (map (StdoutData pid) chunks)).
  destruct (run_stdout_results chunks (step host w1 (ProcessExit pid (Some 0)))
              pid) as (-> & ->).
  rewrite <- Hout.
  destruct (Js.execLitDigits wordsPattern (stdout p')) as [words1|] eqn:Hw.
  - destruct (step_exit_parsed host w1 pid p' words1 Hp' Hex' Hw)
      as (R1 & R2 & _).
    split; [exact R1|]. now rewrite R2, Hm.
  - destruct (step_results host w1 (ProcessExit pid (Some 0)))
      as [R|(i & q & words1 & Hi & Hq & _ & Hparsed & _)]; [exact R|].
    injection Hi as <-. rewrite Hp' in Hq. injection Hq as <-. congruence.
Qed.

(** X10: of two counts that run at once the one whose process exits
    last decides the stored results, whichever was started first: after
    the exit of process [i], with any code, an exit of process [j] with
    code 0 and a word count in its output stores the word count and the
    message of [j]. *)
Theorem last_exit_wins (w : World) (i j : nat) (pj : Proc)
    (code : ExitCode) (words1 : string) :
  i <> j -> procs w !! j = Some pj -> exited pj = false ->
  Js.execLitDigits wordsPattern (stdout pj) = Some words1 ->
  let w' := run host w [ProcessExit i code; ProcessExit j (Some 0)] in
  wordCount (this w') = words1 /\
  texCountMessage (this w')
  = buildMessage words1 (Js.execLitDigits floatsPattern (stdout pj)) (merge pj).
Proof.
  intros Hij Hj Ej Hw w'. unfold w'. simpl.
  assert (He : isExitOf j (ProcessExit i code) = false)
    by (simpl; now apply Nat.eqb_neq).
  destruct (step_output w _ j pj Hj He) as (p1 & H1 & Ho & _).
  destruct (step_keeps host w (ProcessExit i code) j pj Hj)
    as (p2 & H2 & Hm & Hx & _).
  { right. intros c [= ->]. now apply Hij. }
  rewrite H1 in H2. injection H2 as <-.
  simpl in Ho. rewrite string_app_empty in Ho.
  destruct (step_exit_parsed host (step host w (ProcessExit i code)) j p1
              words1 H1) as (Ha & Hb & _).
  - congruence.
  - now rewrite Ho.
  - split; [exact Ha|]. now rewrite Hb, Ho, Hm.
Qed.

End Output.

(** The theorem at a manual count whose output arrives in pieces, with
    a save in between that starts a second count, and whose last chunk
    arrives after the exit event: the word count stored is the one read
    at the exit. *)
Lemma output_accumulates_witness :
  let w := step Posix.host (start onSaveConfig)
             (CallCount "/home/u/main.tex" true) in
  let es := [StdoutData 0 "Words in te";
             CallCountOnSaveIfEnabled "/home/u/main.tex";
             StdoutData 1 "Words in text: 7";
             StdoutData 0 "xt: 10";
             StderrData 0 "warning"] in
  (exists p', procs (run Posix.host w es) !! 0%nat = Some p' /\
              stdout p' = "Words in text: 10" /\
              stderr p' = "warning") /\
  wordCount
    (this (run Posix.host w
             (es ++ ProcessExit 0 (Some 0) :: map (StdoutData 0) ["0"])))
  = "10".
Proof.
  intros w es.
  destruct (output_accumulates Posix.host es ["0"] w 0%nat
              (mkProc true "" "" false false (Some ThenShowInformationMessage))
              eq_refl eq_refl) as (H1 & H2).
  split; [exact H1|]. exact (proj1 (H2 eq_refl)).
Defined.

(** The theorem at a manual count of the project started before a count
    on save whose process exits first. *)
Lemma last_exit_wins_witness :
  let w := run Posix.host (start onSaveConfig)
             [CallCount "/home/u/old.tex" false;
              CallCountOnSaveIfEnabled "/home/u/main.tex";
              StdoutData 0 "Words in text: 5";
              StdoutData 1 sampleOutput] in
  let w' := run Posix.host w [ProcessExit 1 (Some 0); ProcessExit 0 (Some 0)] in
  wordCount (this w') = "5" /\
  texCountMessage (this w') = "There are 5 words in the opened LaTeX file.".
Proof.
  intros w.
  apply (last_exit_wins Posix.host w 1%nat 0%nat
           (mkProc false "Words in text: 5" "" false false
              (Some ThenShowInformationMessage))
           (Some 0) "5");
    [discriminate | reflexivity | reflexivity | reflexivity].
Defined.

(** ** What a finished count shows *)

Section Reactions.

Variable host : Host.

Lemma step_exit_reacts (w : World) (pid : nat) (p : Proc) (words1 : string) :
  microtasks w = [] -> procs w !! pid = Some p ->
  exited p = false -> settled p = false ->
  Js.execLitDigits wordsPattern (stdout p) = Some words1 ->
  let c := stored p words1 (this w) in
  let w' := step host w (ProcessExit pid (Some 0)) in
  this w'
  = match reaction p with
    | Some ThenUpdateWordCount => set_status (displayed c) c
    | _ => c
    end /\
  trace w'
  = trace w
      ++ match reaction p with
         | Some ThenShowInformationMessage =>
             [ShowInformationMessage (texCountMessage c)]
         | _ => []
         end.
Proof.
  intros Hq H E S Hw c w'. unfold w', step.
  rewrite (dispatch_exit host w pid p _ H E), (onExit_parsed _ _ _ _ Hw).
  unfold resolve. simpl. rewrite list_lookup_alter_eq, H. simpl.
  rewrite S. simpl. unfold drainMicrotasks. simpl. rewrite Hq. simpl.
  destruct (reaction p) as [[]|]; simpl.
  - unfold bind. rewrite updateWordCount_displayed. simpl.
    split; [reflexivity|]. now rewrite app_nil_r.
  - unfold bind, getThis, showInformationMessage, effect, update. simpl.
    now split.
  - split; [reflexivity|]. now rewrite app_nil_r.
Qed.

(** X5: when a count finishes with a word count, the reaction of its
    caller runs on the results just stored.  After a save the text and
    the tooltip of the status bar item are refreshed from them (both
    empty when the group of digits was empty) and no message is shown;
    after a manual count the stored message is shown and the status bar
    item keeps the text it had, which may be the one of an older count. *)
Theorem finished_count_shows (configuration : Config) (before : list Event)
    (pid : nat) (p : Proc) (words1 : string) :
  let w := run host (start configuration) before in
  procs w !! pid = Some p -> exited p = false ->
  Js.execLitDigits wordsPattern (stdout p) = Some words1 ->
  let message :=
    buildMessage words1 (Js.execLitDigits floatsPattern (stdout p)) (merge p) in
  let w' := step host w (ProcessExit pid (Some 0)) in
  match reaction p with
  | Some ThenUpdateWordCount =>
      status (this w')
      = (if String.eqb words1 ""
         then mkStatus "" "" (visible (status (this w)))
         else mkStatus (words1 +:+ " words") message
                (visible (status (this w)))) /\
      trace w' = trace w
  | Some ThenShowInformationMessage =>
      status (this w') = status (this w) /\
      trace w' = trace w ++ [ShowInformationMessage message]
  | None => status (this w') = status (this w) /\ trace w' = trace w
  end.
Proof.
  intros w H E Hw message w'.
  destruct (run_betweenTurns host configuration before) as (Hq & Hp).
  destruct (step_exit_reacts w pid p words1 Hq H E (Hp pid p H E) Hw)
    as (Hthis & Htrace).
  fold w' in Hthis, Htrace. rewrite Hthis, Htrace.
  destruct (reaction p) as [[]|]; simpl.
  - split; [|apply app_nil_r]. unfold displayed. simpl.
    now destruct (String.eqb words1 "").
  - now split.
  - split; [reflexivity|apply app_nil_r].
Qed.

Lemma step_error (w : World) (pid : nat) (p : Proc) (err : string) :
  microtasks w = [] -> procs w !! pid = Some p ->
  step host w (ProcessError pid err)
  = with_trace
      (fun t => t ++ [LogError "Cannot count words." (ErrObject err) (stderr p);
                      ShowErrorMessage
                        "TeXCount failed. Please refer to LaTeX Workshop Output for details."])
      w.
Proof.
  intros Hq H. unfold step. simpl. rewrite H.
  unfold onError, logger_logError, logger_showErrorMessage, bind, effect,
    update. simpl.
  rewrite drain_idle by exact Hq. simpl. unfold with_trace. simpl.
  now rewrite <- app_assoc.
Qed.

(** X4: an error event of a process logs the error with the standard
    error output read so far and shows the error notification, and
    changes nothing else: the process is not taken as exited and its
    promise stays as it was.  When an exit with a code other than 0
    follows, the failure is logged and the same notification shown a
    second time. *)
Theorem error_then_exit (configuration : Config) (before : list Event)
    (pid : nat) (p : Proc) (err : string) (code : ExitCode) :
  let w := run host (start configuration) before in
  procs w !! pid = Some p -> exited p = false -> code <> Some 0 ->
  let notice :=
    ShowErrorMessage
      "TeXCount failed. Please refer to LaTeX Workshop Output for details." in
  let w1 := step host w (ProcessError pid err) in
  let w2 := step host w1 (ProcessExit pid code) in
  this w1 = this w /\ procs w1 = procs w /\ timers w1 = timers w /\
  trace w1
  = trace w ++ [LogError "Cannot count words." (ErrObject err) (stderr p);
                notice] /\
  this w2 = this w /\
  trace w2
  = trace w ++ [LogError "Cannot count words." (ErrObject err) (stderr p);
                notice;
                LogError "Cannot count words" (ErrExitCode code) (stderr p);
                notice].
Proof.
  intros w H E Hc notice w1 w2.
  destruct (run_betweenTurns host configuration before) as (Hq & Hp).
  assert (H1 : w1 = with_trace
                      (fun t => t ++ [LogError "Cannot count words."
                                        (ErrObject err) (stderr p); notice])
                      w)
    by (apply step_error; assumption).
  do 4 (split; [now rewrite H1|]).
  unfold w2. rewrite H1.
  rewrite (step_exit_failed host _ pid p code); simpl; try assumption.
  split; [reflexivity|]. unfold failureLogged. now rewrite <- app_assoc.
Qed.

End Reactions.

(** The theorem at a count on save and a manual count that both find one
    hundred words. *)
Lemma finished_count_shows_witness :
  let w := run Posix.host (start onSaveConfig)
             [CallCountOnSaveIfEnabled "/home/u/main.tex";
              CallCount "/home/u/main.tex" false;
              StdoutData 0 sampleOutput] in
  let w' := step Posix.host w (ProcessExit 0 (Some 0)) in
  status (this w')
  = mkStatus "100 words"
      "There are 100 words and 3 floats (tables, figures, etc.) in the LaTeX project."
      true /\
  trace w' = trace w.
Proof.
  exact (finished_count_shows Posix.host onSaveConfig
           [CallCountOnSaveIfEnabled "/home/u/main.tex";
            CallCount "/home/u/main.tex" false;
            StdoutData 0 sampleOutput]
           0%nat
           (mkProc true sampleOutput "" false false (Some ThenUpdateWordCount))
           "100" eq_refl eq_refl eq_refl).
Defined.

(** The theorem at a count whose command is not found. *)
Lemma error_then_exit_witness :
  let w := run Posix.host (start onSaveConfig)
             [CallCount "/home/u/main.tex" true] in
  let w2 := run Posix.host w
              [ProcessError 0 "spawn texcount ENOENT"; ProcessExit 0 (Some 127)] in
  this w2 = this w /\
  trace w2
  = trace w
      ++ [LogError "Cannot count words." (ErrObject "spawn texcount ENOENT") "";
          ShowErrorMessage
            "TeXCount failed. Please refer to LaTeX Workshop Output for details.";
          LogError "Cannot count words" (ErrExitCode (Some 127)) "";
          ShowErrorMessage
            "TeXCount failed. Please refer to LaTeX Workshop Output for details."].
Proof.
  intros w w2.
  destruct (error_then_exit Posix.host onSaveConfig
              [CallCount "/home/u/main.tex" true] 0%nat
              (mkProc true "" "" false false (Some ThenShowInformationMessage))
              "spawn texcount ENOENT" (Some 127) eq_refl eq_refl)
    as (_ & _ & _ & _ & H5 & H6); [discriminate|].
  split; [exact H5|exact H6].
Defined.

(** ** The manual count and the Docker mode *)

Section Manual.

Variable host : Host.

(** X9: the manual count is never debounced: whatever the auto-run
    setting and the suppression flag are, it leaves the flag and the
    timers as they are and spawns one process, to whose promise it
    attaches the reaction that shows the message.  The two exceptions are
    the synchronous throws inside runTeXCount: chmodSync on the script of
    the Docker mode, and cs.spawn on a command it refuses, such as an
    empty texcount.path; the call then throws, and there is no new
    process and no promise. *)
Theorem manual_count_not_debounced (w : World) (file : string) (mrg : bool) :
  let w' := step host w (CallCount file mrg) in
  let throws := chmodFails host w || spawnFails host w file mrg in
  disableCountAfterSave (this w') = disableCountAfterSave (this w) /\
  timers w' = timers w /\
  (exists w1 : World,
     count host file mrg w = if throws then Throws w1 else Returns tt w1) /\
  procs w'
  = if throws then procs w
    else procs w
           ++ [mkProc mrg "" "" false false (Some ThenShowInformationMessage)].
Proof.
  intros w' throws. unfold w', throws, step.
  destruct (drain_returns (worldOf (dispatch host (CallCount file mrg) w)))
    as (st & shown & _ & ->).
  simpl. unfold count. rewrite calls_then.
  destruct (chmodFails host w); [|destruct (spawnFails host w file mrg)];
    simpl; (do 2 (split; [reflexivity|])); (split; [eexists|]); reflexivity.
Qed.

(** X7: when the script of the Docker mode cannot be made executable, a
    save that starts a count throws after the flag was set and the timer
    started: no process is spawned and nothing is attached to a promise,
    and the saves that follow are suppressed until the timer fires. *)
Theorem save_throws_after_arming (w : World) (file : string) :
  autoRunEnabled (this w) = true -> disableCountAfterSave (this w) = false ->
  chmodFails host w = true ->
  countOnSaveIfEnabled host file w
  = Throws (with_trace
              (fun t => t ++ [Log "Use Docker to invoke the command."])
              (armed w file)) /\
  let w' := step host w (CallCountOnSaveIfEnabled file) in
  disableCountAfterSave (this w') = true /\
  timers w' = timers w ++ [mkTimer (autoRunInterval (this w)) false] /\
  procs w' = procs w /\
  countOnSaveIfEnabled host file w'
  = Returns tt
      (with_trace
         (fun t => t ++ [Log "Auto texcount is temporarily disabled during a second."])
         w').
Proof.
  intros Ha Hd Hc.
  assert (Hthrow : countOnSaveIfEnabled host file w
                   = Throws (with_trace
                               (fun t => t ++ [Log "Use Docker to invoke the command."])
                               (armed w file))).
  { rewrite (countOnSaveIfEnabled_armed host file w Ha Hd), calls_then.
    change (chmodFails host (armed w file)) with (chmodFails host w).
    now rewrite Hc. }
  split; [exact Hthrow|]. intros w'.
  assert (Hw' : disableCountAfterSave (this w') = true /\
                autoRunEnabled (this w') = true /\
                timers w' = timers w ++ [mkTimer (autoRunInterval (this w)) false] /\
                procs w' = procs w).
  { unfold w', step.
    destruct (drain_returns
                (worldOf (dispatch host (CallCountOnSaveIfEnabled file) w)))
      as (st & shown & _ & ->).
    simpl. rewrite Hthrow. simpl. now repeat split. }
  destruct Hw' as (H1 & H2 & H3 & H4).
  do 3 (split; [assumption|]).
  now apply countOnSaveIfEnabled_suppressed.
Qed.

End Manual.

(** The theorem on a host where the script is locked, with the Docker
    mode on. *)
Lemma save_throws_after_arming_witness :
  let w := start dockerConfig in
  let w' := step lockedHost w (CallCountOnSaveIfEnabled "/home/u/main.tex") in
  disableCountAfterSave (this w') = true /\
  timers w' = [mkTimer 1000 false] /\
  procs w' = [] /\
  trace w'
  = [Log "Auto texcount started on saving file /home/u/main.tex .";
     SetTimeout 1000;
     Log "Use Docker to invoke the command."].
Proof.
  intros w w'.
  destruct (save_throws_after_arming lockedHost w "/home/u/main.tex"
              eq_refl eq_refl eq_refl) as (_ & H1 & H2 & H3 & _).
  split; [exact H1|]. split; [exact H2|]. split; [exact H3|reflexivity].
Defined.

(** ** A change of the settings *)

Section Reload.

Variable host : Host.

(** X11: a turn that loads a configuration, after a change of the
    settings or a switch to a TeX editor, spawns and logs nothing and
    keeps the stored word count and message, the suppression flag, the
    processes and the timers; when the auto-run setting is "onSave" the
    status bar item is shown with the stored results, which are the ones
    of the last count even when the editor changed, and otherwise it is
    hidden with the text it had. *)
Theorem reload_keeps_results (configuration : Config) (before : list Event)
    (e : Event) (loaded : Config) :
  let w := run host (start configuration) before in
  loadedBy e = Some loaded ->
  let w' := step host w e in
  wordCount (this w') = wordCount (this w) /\
  texCountMessage (this w') = texCountMessage (this w) /\
  disableCountAfterSave (this w') = disableCountAfterSave (this w) /\
  procs w' = procs w /\ timers w' = timers w /\ trace w' = trace w /\
  status (this w')
  = if String.eqb (texcount_autorun loaded) "onSave"
    then
      if String.eqb (wordCount (this w)) ""
      then mkStatus "" "" true
      else mkStatus (wordCount (this w) +:+ " words")
             (texCountMessage (this w)) true
    else mkStatus (text (status (this w))) (tooltip (status (this w))) false.
Proof.
  intros w He w'.
  destruct (run_betweenTurns host configuration before) as (Hq & _).
  assert (Hd : dispatch host e w
               = Returns tt
                   (configured loaded
                      (refreshed
                         (String.eqb (texcount_autorun loaded) "onSave")
                         (this w)) w)).
  { destruct e as [[] cfg|[[[] cfg]|]| | | | | | |]; try discriminate;
      injection He as ->; simpl.
    - unfold onDidChangeConfiguration. apply configure_returns.
    - unfold onDidChangeActiveTextEditor. apply configure_returns. }
  unfold w', step. rewrite Hd. simpl. rewrite drain_idle by exact Hq.
  simpl. do 6 (split; [reflexivity|]).
  unfold refreshed, displayed.
  destruct (String.eqb (texcount_autorun loaded) "onSave"); [|reflexivity].
  now destruct (String.eqb (wordCount (this w)) "").
Qed.

End Reload.

(** The theorem at a switch to another TeX file after a count. *)
Lemma reload_keeps_results_witness :
  let w := run Posix.host (start onSaveConfig)
             [CallCount "/home/u/main.tex" true;
              StdoutData 0 sampleOutput;
              ProcessExit 0 (Some 0)] in
  let w' := step Posix.host w
              (DidChangeActiveTextEditor (Some (true, onSaveConfig))) in
  wordCount (this w') = "100" /\
  status (this w')
  = mkStatus "100 words"
      "There are 100 words and 3 floats (tables, figures, etc.) in the LaTeX project."
      true.
Proof.
  intros w w'.
  destruct (reload_keeps_results Posix.host onSaveConfig
              [CallCount "/home/u/main.tex" true;
               StdoutData 0 sampleOutput;
               ProcessExit 0 (Some 0)]
              (DidChangeActiveTextEditor (Some (true, onSaveConfig)))
              onSaveConfig eq_refl)
    as (H1 & _ & _ & _ & _ & _ & H7).
  split; [exact H1|exact H7].
Defined.

(** ** The match of a pattern *)

Section Leftmost.

Lemma stripPrefix_empty_head (lit a rest s : string) :
  Js.stripPrefix lit s = None -> s = a +:+ lit +:+ rest ->
  exists c a', a = String c a'.
Proof.
  intros E H. destruct a as [|c a']; [|now exists c, a'].
  simpl in H. now apply (stripPrefix_None _ _ rest) in E.
Qed.

(** X8: the exec of a pattern made of a literal and a group of digits
    returns the digits [d] exactly when [d] is the longest run of digits
    that follows the leftmost occurrence of the literal: of several word
    count lines the first one is read, and what follows the digits, a
    decimal point or a thousands separator, is dropped. *)
Theorem execLitDigits_leftmost (lit s d : string) :
  Js.execLitDigits lit s = Some d <->
  exists a rest : string,
    s = a +:+ lit +:+ rest /\ d = Js.takeDigits rest /\
    forall a' rest' : string,
      s = a' +:+ lit +:+ rest' -> (String.length a <= String.length a')%nat.
Proof.
  revert d. induction s as [|c s IH]; intros d.
  - simpl. destruct (Js.stripPrefix lit "") as [r|] eqn:E.
    + pose proof (stripPrefix_Some _ _ _ E) as Hs. split.
      * intros [= <-]. exists "", r. simpl. repeat split; [exact Hs|].
        intros; lia.
      * intros (a & rest & Hs' & -> & _).
        destruct a; [|discriminate].
        change ("" +:+ lit +:+ rest) with (lit +:+ rest) in Hs'.
        pose proof (stripPrefix_app lit rest) as Hx.
        rewrite <- Hs', E in Hx. now injection Hx as ->.
    + split; [discriminate|]. intros (a & rest & Hs' & _).
      destruct (stripPrefix_empty_head _ _ _ _ E Hs') as (c & a' & ->).
      discriminate.
  - simpl. destruct (Js.stripPrefix lit (String c s)) as [r|] eqn:E.
    + pose proof (stripPrefix_Some _ _ _ E) as Hs. split.
      * intros [= <-]. exists "", r. simpl. repeat split; [exact Hs|].
        intros; lia.
      * intros (a & rest & Hs' & -> & Hmin).
        specialize (Hmin "" r Hs). destruct a; [|simpl in Hmin; lia].
        change ("" +:+ lit +:+ rest) with (lit +:+ rest) in Hs'.
        pose proof (stripPrefix_app lit rest) as Hx.
        rewrite <- Hs', E in Hx. now injection Hx as ->.
    + rewrite IH. split.
      * intros (a & rest & -> & -> & Hmin).
        exists (String c a), rest. repeat split.
        intros a' rest' Hs'.
        destruct (stripPrefix_empty_head _ _ _ _ E Hs') as (c' & a'' & ->).
        simpl in Hs'. injection Hs' as _ Hs'. simpl.
        specialize (Hmin a'' rest' Hs'). lia.
      * intros (a & rest & Hs' & -> & Hmin).
        destruct (stripPrefix_empty_head _ _ _ _ E Hs') as (c' & a1 & ->).
        simpl in Hs'. injection Hs' as -> ->.
        exists a1, rest. repeat split.
        intros a'' rest'' Hs''.
        assert (Hx : String c' (a1 +:+ lit +:+ rest)
                     = String c' a'' +:+ lit +:+ rest'').
        { change (String c' a'' +:+ lit +:+ rest'')
            with (String c' (a'' +:+ lit +:+ rest'')).
          now rewrite Hs''. }
        apply Hmin in Hx. cbn in Hx. lia.
Qed.

End Leftmost.

(** ** A process that does not exit *)

Section Hanging.

Variable host : Host.

(** X12: only the exit of its process settles the promise of a count:
    as long as no exit event of the process arrives, whatever else
    happens, its output, error events, timers, saves, other counts and
    their exits, the promise stays pending and the process is not taken
    as exited; there is no time limit on a count. *)
Theorem pending_until_exit (w : World) (pid : nat) (p : Proc)
    (es : list Event) :
  procs w !! pid = Some p -> exited p = false -> settled p = false ->
  forallb (fun e => negb (isExitOf pid e)) es = true ->
  exists p', procs (run host w es) !! pid = Some p' /\
             exited p' = false /\ settled p' = false /\ merge p' = merge p.
Proof.
  intros H E S Hes.
  destruct (run_keeps_running host es w pid p H Hes)
    as (p' & Hp' & Hm & He & Hs).
  exists p'. repeat split; congruence.
Qed.

End Hanging.

(** The theorem at a count on save whose process writes and fails to
    exit, while the timer fires and a manual count runs to its end. *)
Lemma pending_until_exit_witness :
  let w := step Posix.host (start onSaveConfig)
             (CallCountOnSaveIfEnabled "/home/u/main.tex") in
  let es := [StdoutData 0 sampleOutput;
             ProcessError 0 "EPIPE";
             TimerFires 0;
             CallCount "/home/u/main.tex" true;
             StdoutData 1 sampleOutput;
             ProcessExit 1 (Some 0)] in
  exists p', procs (run Posix.host w es) !! 0%nat = Some p' /\
             exited p' = false /\ settled p' = false /\ merge p' = true.
Proof.
  intros w es.
  exact (pending_until_exit Posix.host w 0%nat
           (mkProc true "" "" false false (Some ThenUpdateWordCount))
           es eq_refl eq_refl eq_refl eq_refl).
Defined.

(** * Examples *)

(** An output without floats: the word count is stored and the message
    has no float clause. *)
Example count_42_words :
  let w := run Posix.host (start onSaveConfig)
             [CallCount "/home/u/main.tex" true;
              StdoutData 0 ("Words in text: 42" +:+ LF);
              StdoutData 0 ("Number of floats/tables/figures: 0" +:+ LF);
              ProcessExit 0 (Some 0)] in
  wordCount (this w) = "42" /\
  texCountMessage (this w) = "There are 42 words in the LaTeX project." /\
  last (trace w)
  = Some (ShowInformationMessage "There are 42 words in the LaTeX project.").
Proof. repeat split. Qed.

(** One float is in the singular. *)
Example count_one_float :
  buildMessage "7" (Some "1") true
  = "There are 7 words and 1 float (tables, figures, etc.) in the LaTeX project.".
Proof. reflexivity. Qed.

(** A save counts the project and refreshes the status bar item when the
    promise is resolved; a second save before the timer fires is dropped,
    and one after it counts again. *)
Example save_twice :
  let w := run Posix.host (start onSaveConfig)
             [CallCountOnSaveIfEnabled "/home/u/main.tex";
              CallCountOnSaveIfEnabled "/home/u/main.tex";
              StdoutData 0 sampleOutput;
              ProcessExit 0 (Some 0);
              TimerFires 0;
              CallCountOnSaveIfEnabled "/home/u/main.tex"] in
  status (this w)
  = mkStatus "100 words"
      "There are 100 words and 3 floats (tables, figures, etc.) in the LaTeX project."
      true /\
  length (procs w) = 2%nat /\
  trace w
  = [Log "Auto texcount started on saving file /home/u/main.tex .";
     SetTimeout 1000;
     LogCommand "Count words using command." "texcount"
       ["-inc"; "-merge"; "main.tex"];
     Spawn "texcount" ["-inc"; "-merge"; "main.tex"] "/home/u";
     Log "Auto texcount is temporarily disabled during a second.";
     Log "Auto texcount started on saving file /home/u/main.tex .";
     SetTimeout 1000;
     LogCommand "Count words using command." "texcount"
       ["-inc"; "-merge"; "main.tex"];
     Spawn "texcount" ["-inc"; "-merge"; "main.tex"] "/home/u"].
Proof. repeat split. Qed.

(** In Docker mode on a POSIX host the script is made executable and
    then spawned in the directory of the file. *)
Example count_with_docker :
  trace (run Posix.host (start (mkConfig "never" 1000 ["-merge"] "texcount" true))
           [CallCount "/home/u/main.tex" true])
  = [Log "Use Docker to invoke the command.";
     ChmodSync "/opt/latex-workshop/scripts/texcount" 493;
     LogCommand "Count words using command."
       "/opt/latex-workshop/scripts/texcount" ["-merge"; "main.tex"];
     Spawn "/opt/latex-workshop/scripts/texcount" ["-merge"; "main.tex"]
       "/home/u"].
Proof. reflexivity. Qed.

(** With an empty texcount.path the command is logged and cs.spawn
    throws: nothing is spawned, no process and no promise exist, and the
    stored results and the status bar item are as before. *)
Example count_with_empty_path :
  let w := start (mkConfig "never" 1000 ["-inc"] "" false) in
  let w' := run Posix.host w [CallCount "/home/u/main.tex" true] in
  spawnFails Posix.host w "/home/u/main.tex" true = true /\
  chmodFails Posix.host w = false /\
  procs w' = [] /\
  this w' = this w /\
  trace w'
  = [LogCommand "Count words using command." ""
       ["-inc"; "-merge"; "main.tex"]].
Proof. repeat split. Qed.

(** The base name and the directory of a path on a POSIX host. *)
Example posix_paths :
  Posix.basename "/home/u/thesis/main.tex" = "main.tex" /\
  Posix.dirname "/home/u/thesis/main.tex" = "/home/u/thesis" /\
  Posix.basename "main.tex" = "main.tex" /\
  Posix.dirname "main.tex" = "." /\
  Posix.basename "/home/u/thesis/" = "thesis" /\
  Posix.dirname "/main.tex" = "/" /\
  Posix.dirname "a/main.tex" = "a".
Proof. repeat split. Qed.
